(** * Consciousness simulator: the thought chain of [streamlit_app.py] and the
      cached listings of [local_utils/ui_lib.py]

    The development embeds the session record [ThoughtData], the script body
    [render_main_functionality] (one Streamlit script run over the live
    session object) and the two [st.cache_data] listings of [ui_lib], and
    states the properties of the thought chain over them. *)

From Stdlib Require Import ZArith Lia.
From stdpp Require Import gmap strings list fin_maps sorting.

Local Open Scope Z_scope.

(** ** Responses of the reasoning engine *)

(** Modelled from the spec: the response classes of [local_utils.brain] are not
    among the sources.  A kick-off result carries the two attributes the
    script reads, [response_type] and [rationale]; a step result carries its
    [response_type] and the rest of the answer as [reflect_body]. *)
Record StartNewThoughtResponse := {
  response_type : string;
  rationale : string
}.

Record ReflectThoughtResponse := {
  reflect_response_type : string;
  reflect_body : string
}.

(** ** The session record *)

(** [class ThoughtData(BaseSessionData)]: the eight declared fields, and the
    [session_id] the script reads from the base class. *)
Record ThoughtData := {
  session_id : string;
  thought_model : string;
  trigger_new_thought : bool;
  new_thought : option StartNewThoughtResponse;
  this_thought_responses : list ReflectThoughtResponse;
  current_thought_index : Z;
  thought_complete : bool;
  thought_had_error : bool;
  thought_status_msgs : list string
}.

(** The class defaults. *)
Definition ThoughtData_default (sid : string) : ThoughtData := {|
  session_id := sid;
  thought_model := EmptyString;
  trigger_new_thought := false;
  new_thought := None;
  this_thought_responses := [];
  current_thought_index := 0;
  thought_complete := false;
  thought_had_error := false;
  thought_status_msgs := []
|}.

Inductive ThoughtStatus := running | complete | error.

(** [ThoughtData.get_thought_status] *)
Definition get_thought_status (self : ThoughtData) : ThoughtStatus :=
  if thought_had_error self then error
  else if thought_complete self then complete
  else running.


(** ** One script run: state, exceptions and the engine oracle *)

(** What ends a script run early: an exception of the engine, the
    [ValueError] of the display loop, the [AttributeError] of reading an
    attribute of [None], the I/O error of a write to the session directory
    that fails ([StoreError]), and Streamlit's two control-flow exceptions
    raised by [st.stop()] and [st.experimental_rerun()]. *)
Inductive signal :=
  | EngineError (msg : string)
  | ValueError (msg : string)
  | AttributeError
  | StoreError (msg : string)
  | StopException
  | RerunException.

Inductive outcome (A : Type) :=
  | Returned (a : A)
  | Raised (e : signal).
Arguments Returned {A} a.
Arguments Raised {A} e.

(** The reasoning engine [Brain] is an external collaborator: each call either
    returns a typed response or raises.  A [Brain] value is the oracle of one
    script run; [run_reflect_thought] takes the rationale and the previous
    responses. *)
Record Brain := {
  get_new_thought_type : outcome StartNewThoughtResponse;
  run_reflect_thought :
    string -> list ReflectThoughtResponse -> outcome ReflectThoughtResponse
}.

(** The calls made to the engine, in order, with what came back. *)
Inductive EngineCall :=
  | CallClassify (res : outcome StartNewThoughtResponse)
  | CallStep (rationale : string) (history : list ReflectThoughtResponse)
             (res : outcome ReflectThoughtResponse).

(** The state a run works on: the live session object, the slot of
    [st.session_state] that [save_to_session_state] writes, the directory
    [settings.session_data] with one file per session id, the query parameter
    [s], the log of engine calls, and whether the session directory accepts
    writes ([store_available]; a write to a directory that does not fails
    with an I/O error). *)
Record World := {
  session_data : ThoughtData;
  session_state : option ThoughtData;
  session_dir : gmap string ThoughtData;
  query_s : string;
  engine_log : list EngineCall;
  store_available : bool
}.

Definition with_session (f : ThoughtData -> ThoughtData) (w : World) : World := {|
  session_data := f (session_data w);
  session_state := session_state w;
  session_dir := session_dir w;
  query_s := query_s w;
  engine_log := engine_log w;
  store_available := store_available w
|}.

(** State and exception monad of a script run. *)
Definition Script (A : Type) : Type := World -> outcome A * World.

Definition raise {A} (e : signal) : Script A := fun w => (Raised e, w).

#[export] Instance Script_ret : MRet Script := fun A a w => (Returned a, w).

#[export] Instance Script_bind : MBind Script := fun A B k m w =>
  match m w with
  | (Returned a, w') => k a w'
  | (Raised e, w') => (Raised e, w')
  end.

Definition get_session : Script ThoughtData := fun w => (Returned (session_data w), w).

Definition modify_session (f : ThoughtData -> ThoughtData) : Script unit :=
  fun w => (Returned tt, with_session f w).

(** ** Field assignments on the session object *)

Definition set_thought_status_msgs (l : list string) (s : ThoughtData) : ThoughtData := {|
  session_id := session_id s;
  thought_model := thought_model s;
  trigger_new_thought := trigger_new_thought s;
  new_thought := new_thought s;
  this_thought_responses := this_thought_responses s;
  current_thought_index := current_thought_index s;
  thought_complete := thought_complete s;
  thought_had_error := thought_had_error s;
  thought_status_msgs := l
|}.

Definition set_this_thought_responses (l : list ReflectThoughtResponse)
    (s : ThoughtData) : ThoughtData := {|
  session_id := session_id s;
  thought_model := thought_model s;
  trigger_new_thought := trigger_new_thought s;
  new_thought := new_thought s;
  this_thought_responses := l;
  current_thought_index := current_thought_index s;
  thought_complete := thought_complete s;
  thought_had_error := thought_had_error s;
  thought_status_msgs := thought_status_msgs s
|}.

Definition set_new_thought (k : option StartNewThoughtResponse)
    (s : ThoughtData) : ThoughtData := {|
  session_id := session_id s;
  thought_model := thought_model s;
  trigger_new_thought := trigger_new_thought s;
  new_thought := k;
  this_thought_responses := this_thought_responses s;
  current_thought_index := current_thought_index s;
  thought_complete := thought_complete s;
  thought_had_error := thought_had_error s;
  thought_status_msgs := thought_status_msgs s
|}.

Definition set_trigger (b : bool) (model : string) (s : ThoughtData) : ThoughtData := {|
  session_id := session_id s;
  thought_model := model;
  trigger_new_thought := b;
  new_thought := new_thought s;
  this_thought_responses := this_thought_responses s;
  current_thought_index := current_thought_index s;
  thought_complete := thought_complete s;
  thought_had_error := thought_had_error s;
  thought_status_msgs := thought_status_msgs s
|}.

(** ** Methods of the base class *)

(** Modelled from the spec: [BaseSessionData] ([local_utils/session_data.py])
    is not among the sources.  [save_to_session_state] stores the record in the
    framework's session state, which lives in memory only. *)
Definition save_to_session_state : Script unit :=
  fun w => (Returned tt, {|
    session_data := session_data w;
    session_state := Some (session_data w);
    session_dir := session_dir w;
    query_s := query_s w;
    engine_log := engine_log w;
    store_available := store_available w
  |}).

(** Modelled from the spec: [persist_session_state(settings.session_data)] is
    the store's [put(id, record)]: it durably overwrites the stored value for
    the record's id (the file named after the session id), and an I/O error
    of the write is surfaced to the caller: on a directory that does not
    accept writes it raises and leaves the directory as it is. *)
Definition persist_session_state : Script unit :=
  fun w =>
    if store_available w then
      (Returned tt, {|
        session_data := session_data w;
        session_state := session_state w;
        session_dir :=
          <[session_id (session_data w) := session_data w]> (session_dir w);
        query_s := query_s w;
        engine_log := engine_log w;
        store_available := store_available w
      |})
    else (Raised (StoreError "cannot write the session file"), w).

(** Modelled from the spec: [clear_session] discards the in-memory binding and
    detaches from the identifier; the persisted record is not deleted. *)
Definition clear_session : Script unit :=
  fun w => (Returned tt, {|
    session_data := ThoughtData_default EmptyString;
    session_state := None;
    session_dir := session_dir w;
    query_s := query_s w;
    engine_log := engine_log w;
    store_available := store_available w
  |}).

(** [st.experimental_set_query_params(s=...)] *)
Definition set_query_params (s : string) : Script unit :=
  fun w => (Returned tt, {|
    session_data := session_data w;
    session_state := session_state w;
    session_dir := session_dir w;
    query_s := s;
    engine_log := engine_log w;
    store_available := store_available w
  |}).

(** ** Methods of [ThoughtData] *)

(** [add_reflect_thought_response]: append, then save to the session state. *)
Definition add_reflect_thought_response (response : ReflectThoughtResponse) : Script unit :=
  modify_session (fun s =>
    set_this_thought_responses (this_thought_responses s ++ [response]) s) ;;
  save_to_session_state.

(** [add_thought_status_msg]: append, then save to the session state. *)
Definition add_thought_status_msg (msg : string) : Script unit :=
  modify_session (fun s =>
    set_thought_status_msgs (thought_status_msgs s ++ [msg]) s) ;;
  save_to_session_state.

(** [trigger_chain_of_thought(session, model)] *)
Definition trigger_chain_of_thought (model : string) : Script unit :=
  modify_session (set_trigger true model).

(** ** Calls to the engine *)

Definition log_call (c : EngineCall) : Script unit :=
  fun w => (Returned tt, {|
    session_data := session_data w;
    session_state := session_state w;
    session_dir := session_dir w;
    query_s := query_s w;
    engine_log := engine_log w ++ [c];
    store_available := store_available w
  |}).

Definition lift {A} (r : outcome A) : Script A := fun w => (r, w).

(** [brain.get_new_thought_type()] *)
Definition call_get_new_thought_type (brain : Brain) : Script StartNewThoughtResponse :=
  log_call (CallClassify (get_new_thought_type brain)) ;;
  lift (get_new_thought_type brain).

(** [brain.run_reflect_thought(rationale, previous_thought_responses=...)] *)
Definition call_run_reflect_thought (brain : Brain) (rat : string)
    (previous : list ReflectThoughtResponse) : Script ReflectThoughtResponse :=
  log_call (CallStep rat previous (run_reflect_thought brain rat previous)) ;;
  lift (run_reflect_thought brain rat previous).

(** ** The script body *)

(** The widgets a run reads: the submitted form with its selected model, the
    text input and the select box of the loader, and the continue button. *)
Record UiInput := {
  form_submit : option string;
  text_thought_id : string;
  select_thought_id : string;
  continue_clicked : bool
}.

(** [session_data.new_thought.<attr>]: reading an attribute of the kick-off. *)
Definition get_new_thought : Script StartNewThoughtResponse :=
  s ← get_session;
  match new_thought s with
  | Some k => mret k
  | None => raise AttributeError
  end.

(** The block that displays the responses of the chain: it writes widgets
    only, and raises [ValueError] for a thought type other than [REFLECT]. *)
Definition display_responses (REFLECT : string) : Script unit :=
  s ← get_session;
  match this_thought_responses s with
  | [] => mret tt
  | _ :: _ =>
      k ← get_new_thought;
      if decide (response_type k = REFLECT) then mret tt
      else raise (ValueError ("Unsupported thought_type: " +:+ response_type k))
  end.

(** [render_main_functionality(settings, session_data)].  [REFLECT] is
    [ThoughtTypes.REFLECT] of [local_utils.prompts], [new_Brain] the
    constructor [Brain(logger=..., settings=..., model=...)] as a function of
    the model.  Widgets that only display are left out. *)
Definition render_main_functionality (REFLECT : string) (new_Brain : string -> Brain)
    (ui : UiInput) : Script unit :=
  s ← get_session;
  if negb (trigger_new_thought s) then
    match form_submit ui with
    | Some model => trigger_chain_of_thought model ;; raise RerunException
    | None =>
        let thought_id :=
          if decide (text_thought_id ui = EmptyString) then select_thought_id ui
          else text_thought_id ui in
        if decide (thought_id = EmptyString) then raise StopException
        else clear_session ;; set_query_params thought_id ;; raise RerunException
    end
  else
    let brain := new_Brain (thought_model s) in
    match thought_status_msgs s with
    | [] =>
        add_thought_status_msg ("Thought initiated " +:+ session_id s) ;;
        add_thought_status_msg ("Thought Model: " +:+ thought_model s)
    | _ :: _ => mret tt
    end ;;
    s ← get_session;
    match new_thought s with
    | None =>
        k ← call_get_new_thought_type brain;
        modify_session (set_new_thought (Some k)) ;;
        k ← get_new_thought;
        add_thought_status_msg ("Thought Type: " +:+ response_type k) ;;
        persist_session_state
    | Some _ => mret tt
    end ;;
    _ ← get_new_thought;
    (if continue_clicked ui then
       k ← get_new_thought;
       s ← get_session;
       thought_response ←
         call_run_reflect_thought brain (rationale k) (this_thought_responses s);
       add_reflect_thought_response thought_response ;;
       add_thought_status_msg ("Action: " +:+ reflect_response_type thought_response) ;;
       persist_session_state
     else mret tt) ;;
    display_responses REFLECT.

(** One user action: the widget values of a run and the engine of that run. *)
Record Action := {
  action_ui : UiInput;
  action_engine : string -> Brain
}.

(** A sequence of script runs over the same live session object; a run that
    ends in an exception leaves its mutations in place. *)
Fixpoint run_chain (REFLECT : string) (acts : list Action) (w : World) : World :=
  match acts with
  | [] => w
  | a :: acts' =>
      run_chain REFLECT acts'
        (snd (render_main_functionality REFLECT (action_engine a) (action_ui a) w))
  end.

(** The number of step calls, and of classify calls, that returned. *)
Definition step_returned (c : EngineCall) : bool :=
  match c with
  | CallStep _ _ (Returned _) => true
  | _ => false
  end.

Definition classify_returned (c : EngineCall) : bool :=
  match c with
  | CallClassify (Returned _) => true
  | _ => false
  end.

Definition is_classify (c : EngineCall) : bool :=
  match c with
  | CallClassify _ => true
  | _ => false
  end.


Definition count_calls (p : EngineCall -> bool) (log : list EngineCall) : nat :=
  length (List.filter p log).
Arguments count_calls : simpl never.

(** ** The recent-thoughts view of [streamlit_app.py] *)

(** Descending order of file names, as [sorted(..., reverse=True)] leaves
    them. *)
Definition name_after (a b : string) : Prop := String.leb b a = true.

#[export] Instance name_after_dec (a b : string) : Decision (name_after a b) :=
  bool_eq_dec (String.leb b a) true.

(** The slice [l[:n]]; a negative [n] counts from the end. *)
Definition slice_to {A : Type} (n : Z) (l : list A) : list A :=
  if decide (0 <= n) then take (Z.to_nat n) l
  else take (length l - Z.to_nat (- n)) l.

(** The session files [render_recent_thoughts(settings, n)] reads: the first
    [n] names of the directory in descending order. *)
Definition recent_session_files (dir : gmap string ThoughtData) (n : Z) : list string :=
  slice_to n (merge_sort name_after (map fst (map_to_list dir))).

(** [text.append(obj.new_thought.rationale)] for each of them. *)
Fixpoint collect_rationales (objs : list ThoughtData) : outcome (list string) :=
  match objs with
  | [] => Returned []
  | obj :: rest =>
      match new_thought obj with
      | None => Raised AttributeError
      | Some k =>
          match collect_rationales rest with
          | Returned text => Returned (rationale k :: text)
          | Raised e => Raised e
          end
      end
  end.

(** The loop of [render_recent_thoughts]; the directory maps a file name to
    the record its text validates to. *)
Definition render_recent_thoughts_text (dir : gmap string ThoughtData) (n : Z)
    : outcome (list string) :=
  collect_rationales (omap (fun name => dir !! name) (recent_session_files dir n)).

(** What the view shows: a word cloud generated from the joined rationales,
    or the line "No recent thoughts". *)
Inductive RecentView :=
  | WordCloud (text : string)
  | NoRecentThoughts.

(** ["\n".join(text)] *)
Definition join_lines (text : list string) : string :=
  String.concat (String (Ascii.ascii_of_nat 10) EmptyString) text.

(** [render_recent_thoughts(settings, n)]: the loop, then [if text: ...].
    [wc.generate] of the word cloud library raises [ValueError] for a text
    without a word to plot; which texts have one is decided by the library
    (its tokenizer and stop words) and is the parameter [plottable]. *)
Definition render_recent_thoughts (plottable : string -> bool)
    (dir : gmap string ThoughtData) (n : Z) : outcome RecentView :=
  match render_recent_thoughts_text dir n with
  | Returned [] => Returned NoRecentThoughts
  | Returned (line :: text) =>
      if plottable (join_lines (line :: text))
      then Returned (WordCloud (join_lines (line :: text)))
      else Raised (ValueError "We need at least 1 word to plot a word cloud, got 0.")
  | Raised e => Raised e
  end.

(** ** The cached listings of [local_utils/ui_lib.py] *)

(** Modelled from the spec: [Thought] and [ThoughtMemory] of
    [local_utils.v2.thoughts] are not among the sources.  A thought has a
    [completed] flag and a recency by which the store orders completed
    thoughts ([completed_at]); [model_dump] is its dump to a dictionary. *)
Class ThoughtModel := {
  Thought : Type;
  dict : Type;
  model_dump : Thought -> dict;
  completed : Thought -> bool;
  completed_at : Thought -> Z
}.

Inductive MemoryQuery :=
  | ListRecentlyCompleted (num : Z)
  | ListIncomplete.

(** The store behind [setup_memory()]: the table's contents and the queries
    it has served. *)
Record Memory `{ThoughtModel} := {
  table : list Thought;
  queries : list MemoryQuery
}.

(** More recent first. *)
Definition more_recent `{ThoughtModel} (a b : Thought) : Prop :=
  completed_at b <= completed_at a.

#[export] Instance more_recent_dec `{ThoughtModel} (a b : Thought) :
  Decision (more_recent a b) := Z_le_dec (completed_at b) (completed_at a).

(** Modelled from the spec: [ThoughtMemory.list_recently_completed_thoughts(num)]
    answers the [num] most recently completed records. *)
Definition list_recently_completed_thoughts `{ThoughtModel} (num : Z) (m : Memory)
    : list Thought * Memory :=
  (take (Z.to_nat num)
     (merge_sort more_recent (filter (fun t => completed t = true) (table m))),
   {| table := table m; queries := queries m ++ [ListRecentlyCompleted num] |}).

(** Modelled from the spec: [ThoughtMemory.list_incomplete_thoughts()] answers
    all records with [completed == false]. *)
Definition list_incomplete_thoughts `{ThoughtModel} (m : Memory) : list Thought * Memory :=
  (filter (fun t => completed t = false) (table m),
   {| table := table m; queries := queries m ++ [ListIncomplete] |}).

(** [timedelta(seconds=...)], in microseconds as [timedelta] keeps it. *)
Definition timedelta_seconds (s : Z) : Z := s * 1000000.

(** An entry of a [st.cache_data] cache: the value and when it was computed. *)
Record CacheEntry (V : Type) := {
  cached_value : V;
  computed_at : Z
}.
Arguments cached_value {V} _.
Arguments computed_at {V} _.

(** [@st.cache_data(ttl=...)]: the decorated function, keyed by its
    arguments.  An entry is served while the clock is before its computation
    time plus [ttl]; otherwise the body runs and its value replaces the
    entry, stamped with the current time. *)
Definition cache_data {K V S : Type} `{Countable K} (ttl : Z) (body : K -> S -> V * S)
    (now : Z) (k : K) (cs : gmap K (CacheEntry V) * S) : V * (gmap K (CacheEntry V) * S) :=
  let fresh :=
    match cs.1 !! k with
    | Some e => if decide (now < computed_at e + ttl) then Some (cached_value e) else None
    | None => None
    end in
  match fresh with
  | Some v => (v, cs)
  | None =>
      let (v, s') := body k cs.2 in
      (v, (<[k := {| cached_value := v; computed_at := now |}]> cs.1, s'))
  end.

(** The body of [_list_recent_thoughts(num)]. *)
Definition _list_recent_thoughts_body `{ThoughtModel} (num : Z) (m : Memory)
    : list dict * Memory :=
  let (thoughts, m') := list_recently_completed_thoughts num m in
  (map model_dump thoughts, m').

(** The body of [_list_incomplete_thoughts()]. *)
Definition _list_incomplete_thoughts_body `{ThoughtModel} (_ : unit) (m : Memory)
    : list dict * Memory :=
  let (thoughts, m') := list_incomplete_thoughts m in
  (map model_dump thoughts, m').

(** The process state the listings run in: the clock (microseconds), the
    store, and the cache of each decorated function. *)
Record UiState `{ThoughtModel} := {
  clock : Z;
  memory : Memory;
  recent_cache : gmap Z (CacheEntry (list dict));
  incomplete_cache : gmap unit (CacheEntry (list dict))
}.

(** [@st.cache_data(ttl=timedelta(seconds=5)) def _list_recent_thoughts(num)] *)
Definition _list_recent_thoughts `{ThoughtModel} (num : Z) (u : UiState)
    : list dict * UiState :=
  let '(v, (c, m)) :=
    cache_data (timedelta_seconds 5) _list_recent_thoughts_body (clock u) num
      (recent_cache u, memory u) in
  (v, {| clock := clock u; memory := m; recent_cache := c;
         incomplete_cache := incomplete_cache u |}).

(** [@st.cache_data(ttl=timedelta(seconds=5)) def _list_incomplete_thoughts()] *)
Definition _list_incomplete_thoughts `{ThoughtModel} (u : UiState)
    : list dict * UiState :=
  let '(v, (c, m)) :=
    cache_data (timedelta_seconds 5) _list_incomplete_thoughts_body (clock u) tt
      (incomplete_cache u, memory u) in
  (v, {| clock := clock u; memory := m; recent_cache := recent_cache u;
         incomplete_cache := c |}).

(** ** Sample data *)

Definition kickoff_R1 : StartNewThoughtResponse :=
  {| response_type := "reflect"; rationale := "R1" |}.

Definition step_of (kind : string) : ReflectThoughtResponse :=
  {| reflect_response_type := kind; reflect_body := "..." |}.

(** An engine whose calls return, and one whose calls raise. *)
Definition engine_ok (model : string) : Brain := {|
  get_new_thought_type := Returned kickoff_R1;
  run_reflect_thought := fun _ _ => Returned (step_of "reflect")
|}.

Definition engine_down (model : string) : Brain := {|
  get_new_thought_type := Raised (EngineError "engine unavailable");
  run_reflect_thought := fun _ _ => Raised (EngineError "engine unavailable")
|}.

Definition ui_idle : UiInput :=
  {| form_submit := None; text_thought_id := EmptyString;
     select_thought_id := EmptyString; continue_clicked := false |}.

Definition ui_continue : UiInput :=
  {| form_submit := None; text_thought_id := EmptyString;
     select_thought_id := EmptyString; continue_clicked := true |}.

Definition world_of (s : ThoughtData) : World :=
  {| session_data := s; session_state := None; session_dir := ∅;
     query_s := session_id s; engine_log := [];
     store_available := true |}.

(** A chain just triggered with model gpt-4. *)
Definition record_triggered : ThoughtData :=
  set_trigger true "gpt-4" (ThoughtData_default "t1").

(** A chain with its kick-off and one step, whose [thought_complete] is set. *)
Definition record_completed : ThoughtData := {|
  session_id := "t1";
  thought_model := "gpt-4";
  trigger_new_thought := true;
  new_thought := Some kickoff_R1;
  this_thought_responses := [step_of "final"];
  current_thought_index := 0;
  thought_complete := true;
  thought_had_error := false;
  thought_status_msgs := ["Thought initiated t1"; "Thought Model: gpt-4";
                          "Thought Type: reflect"; "Action: final"]
|}.

(** A chain with its kick-off set and one step, as a resumed session finds it. *)
Definition record_resumed : ThoughtData := {|
  session_id := "t1";
  thought_model := "gpt-4";
  trigger_new_thought := true;
  new_thought := Some kickoff_R1;
  this_thought_responses := [step_of "reflect"];
  current_thought_index := 0;
  thought_complete := false;
  thought_had_error := false;
  thought_status_msgs := ["Thought initiated t1"; "Thought Model: gpt-4";
                          "Thought Type: reflect"; "Action: reflect"]
|}.

(** A record with its kick-off set and an empty status log. *)
Definition record_no_msgs : ThoughtData :=
  set_thought_status_msgs [] record_resumed.

(** A record with both flags set. *)
Definition record_failed_and_complete : ThoughtData := {|
  session_id := "t2";
  thought_model := "gpt-4";
  trigger_new_thought := true;
  new_thought := Some kickoff_R1;
  this_thought_responses := [];
  current_thought_index := 0;
  thought_complete := true;
  thought_had_error := true;
  thought_status_msgs := []
|}.

Definition act_continue (engine : string -> Brain) : Action :=
  {| action_ui := ui_continue; action_engine := engine |}.

Definition act_idle (engine : string -> Brain) : Action :=
  {| action_ui := ui_idle; action_engine := engine |}.

(** A sample thought model: a thought is its id, its completed flag and its
    completion time, and its dump is the same triple. *)
Definition sample_model : ThoughtModel := {|
  Thought := string * bool * Z;
  dict := string * bool * Z;
  model_dump := fun t => t;
  completed := fun t => t.1.2;
  completed_at := fun t => t.2
|}.

Definition sample_table : list (@Thought sample_model) :=
  [("a", true, 10); ("b", false, 20); ("c", true, 30); ("d", true, 5)].

(** A process that has just started: empty caches, the clock at [now]. *)
Definition sample_state (now : Z) (tbl : list (@Thought sample_model))
    : @UiState sample_model :=
  @Build_UiState sample_model now (@Build_Memory sample_model tbl []) ∅ ∅.

(** The same process later: the caches and the query log are kept, the clock
    and the table's contents are new. *)
Definition later `{ThoughtModel} (u : UiState) (now : Z) (tbl : list Thought) : UiState :=
  {| clock := now;
     memory := {| table := tbl; queries := queries (memory u) |};
     recent_cache := recent_cache u;
     incomplete_cache := incomplete_cache u |}.

(** ** The [try] block of [main()] *)

(** The files of [settings.session_data] as the view lists them: the record
    of session [id] is the file [<id>.json]. *)
Definition session_files (w : World) : gmap string ThoughtData :=
  list_to_map
    ((fun p : string * ThoughtData => (p.1 +:+ ".json", p.2))
       <$> map_to_list (session_dir w)).

(** [main()] once the session is initialised: the knowledge base tab (which
    renders nothing), the recent-thoughts view with its default [n = 5], then
    the main tab.  An exception of the view leaves the [try] block before the
    main tab is rendered; the [finally] block only displays. *)
Definition main_body (REFLECT : string) (plottable : string -> bool)
    (new_Brain : string -> Brain) (ui : UiInput) : Script unit :=
  fun w =>
    match render_recent_thoughts plottable (session_files w) 5 with
    | Raised e => (Raised e, w)
    | Returned _ => render_main_functionality REFLECT new_Brain ui w
    end.

(** A sequence of runs of [main()] over the same live session object. *)
Fixpoint main_chain (REFLECT : string) (plottable : string -> bool)
    (acts : list Action) (w : World) : World :=
  match acts with
  | [] => w
  | a :: acts' =>
      main_chain REFLECT plottable acts'
        (main_body REFLECT plottable (action_engine a) (action_ui a) w).2
  end.

(** ** A burst of calls of the cached listing *)

(** [_list_recent_thoughts(num)] called once per event, each event giving
    what the clock reads and what the table holds at that call. *)
Fixpoint recent_calls `{ThoughtModel} (num : Z) (evs : list (Z * list Thought))
    (u : UiState) : list (list dict) * UiState :=
  match evs with
  | [] => ([], u)
  | (now, tbl) :: evs' =>
      let (v, u') := _list_recent_thoughts num (later u now tbl) in
      let (vs, u'') := recent_calls num evs' u' in
      (v :: vs, u'')
  end.

(** ** The validated listings and the tab bar of [ui_lib] *)

Module ui_lib.

(** What [TypeAdapter(...).validate_python] gives: the validated value, or
    [ValidationError] raised. *)
Inductive validated (A : Type) :=
  | Valid (a : A)
  | ValidationError.
Arguments Valid {A} a.
Arguments ValidationError {A}.

Section validation.
Context `{ThoughtModel}.

(** The validation of one dictionary against [Thought] is pydantic's, given
    the model; it is a parameter here, [None] standing for a failure. *)
Variable validate : dict -> option Thought.

(** [TypeAdapter(list[Thought]).validate_python(l)]: every element is
    validated, in order, and one failure fails the whole list. *)
Definition validate_python (l : list dict) : validated (list Thought) :=
  match mapM validate l with
  | Some ts => Valid ts
  | None => ValidationError
  end.

(** [list_recent_thoughts(num)] *)
Definition list_recent_thoughts (num : Z) (u : UiState)
    : validated (list Thought) * UiState :=
  let (ds, u') := _list_recent_thoughts num u in
  (validate_python ds, u').

(** [list_incomplete_thoughts()] *)
Definition list_incomplete_thoughts (u : UiState)
    : validated (list Thought) * UiState :=
  let (ds, u') := _list_incomplete_thoughts u in
  (validate_python ds, u').

End validation.

(** The elements the tab bar writes to the page. *)
Inductive Element :=
  | Empty
  | Tabs (labels : list string).

(** [st.session_state.get("debug-bn", 0)] *)
Definition debug_bn (session_state : gmap string Z) : Z :=
  default 0 (session_state !! "debug-bn").

(** [force_home_tab()] *)
Definition force_home_tab (session_state : gmap string Z) : gmap string Z :=
  <["debug-bn" := debug_bn session_state + 1]> session_state.

(** [home_tab_hack()]: one [st.empty()] per element of [range(idx)]. *)
Definition home_tab_hack (session_state : gmap string Z) : list Element :=
  replicate (Z.to_nat (debug_bn session_state)) Empty.

(** [render_tabbar()]: what is written to the page. *)
Definition render_tabbar (session_state : gmap string Z) : list Element :=
  home_tab_hack session_state
  ++ [Tabs ["Home"; "AI Generated Blog"; "Recent Thoughts"; "Debug"]].

(** The widgets [render_debug_tab] reads. *)
Record DebugInput := {
  show_incomplete : bool;
  load_incomplete : string;
  submitted : bool
}.

Inductive DebugOutcome `{ThoughtModel} :=
  | DebugShown (table : option (list dict)) (form_error : option string)
  | DebugRerun
  | DebugValidationError.

Section debug_tab.
Context `{ThoughtModel}.

(** The session class of the caller and its two operations used here,
    [session.clear_session()] and the assignment [session.thought_id = ...],
    are not among the sources; they are parameters. *)
Context {Session : Type}.
Variable clear_session : Session -> Session.
Variable set_thought_id : string -> Session -> Session.
Variable validate : dict -> option Thought.

(** [render_debug_tab(session, settings)]: the toggle and the load form; the
    expanders above them only display. *)
Definition render_debug_tab (inp : DebugInput)
    (st : Session * gmap string Z * UiState)
    : DebugOutcome * (Session * gmap string Z * UiState) :=
  let '(session, session_state, u) := st in
  if show_incomplete inp then
    let (listing, u') := list_incomplete_thoughts validate u in
    match listing with
    | ValidationError => (DebugValidationError, (session, session_state, u'))
    | Valid ts =>
        let table := Some (map model_dump ts) in
        if submitted inp then
          if decide (load_incomplete inp = EmptyString) then
            (DebugShown table (Some "Specify thought ID"), (session, session_state, u'))
          else
            (DebugRerun,
             (set_thought_id (load_incomplete inp) (clear_session session),
              force_home_tab session_state, u'))
        else (DebugShown table None, (session, session_state, u'))
    end
  else (DebugShown None None, st).

End debug_tab.

End ui_lib.

(** ** Reading the engine log *)

#[export] Instance StartNewThoughtResponse_eq_dec : EqDecision StartNewThoughtResponse.
Proof. solve_decision. Defined.

#[export] Instance ReflectThoughtResponse_eq_dec : EqDecision ReflectThoughtResponse.
Proof. solve_decision. Defined.

(** Replays the step calls of a log over a list of steps: every step call
    must have been given the steps held at that point, and a call that
    returned adds its response.  [None] if some call saw another history. *)
Fixpoint replay_steps (steps : list ReflectThoughtResponse) (log : list EngineCall)
    : option (list ReflectThoughtResponse) :=
  match log with
  | [] => Some steps
  | CallClassify _ :: log' => replay_steps steps log'
  | CallStep _ history res :: log' =>
      if decide (history = steps) then
        match res with
        | Returned r => replay_steps (steps ++ [r]) log'
        | Raised _ => replay_steps steps log'
        end
      else None
  end.

(** The rationale a call was given, for a step call. *)
Definition call_rationale (c : EngineCall) : option string :=
  match c with
  | CallStep rat _ _ => Some rat
  | CallClassify _ => None
  end.

(** A step call was given the rationale of the kick-off [ko]. *)
Definition given_rationale_of (ko : option StartNewThoughtResponse) (c : EngineCall)
    : Prop :=
  match call_rationale c with
  | Some rat => Some rat = rationale <$> ko
  | None => True
  end.

(** The status message that follows a call that returned. *)
Definition call_status_msg (c : EngineCall) : list string :=
  match c with
  | CallClassify (Returned k) => ["Thought Type: " +:+ response_type k]
  | CallStep _ _ (Returned r) => ["Action: " +:+ reflect_response_type r]
  | _ => []
  end.

(** The two messages that open the status log of a chain. *)
Definition opening_msgs (s : ThoughtData) : list string :=
  ["Thought initiated " +:+ session_id s; "Thought Model: " +:+ thought_model s].

(** What a call raised, if it did. *)
Definition call_raised (c : EngineCall) : option signal :=
  match c with
  | CallClassify (Raised e) => Some e
  | CallStep _ _ (Raised e) => Some e
  | _ => None
  end.

(** * Properties *)

(** ** Reasoning about one run *)

Lemma count_calls_app p (l1 l2 : list EngineCall) :
  count_calls p (l1 ++ l2) = (count_calls p l1 + count_calls p l2)%nat.
Proof. unfold count_calls. by rewrite List.filter_app, length_app. Qed.

(** The display block leaves the state as it is. *)
Lemma display_responses_world REFLECT w : (display_responses REFLECT w).2 = w.
Proof.
  unfold display_responses, get_new_thought, get_session, raise, mbind, mret,
    Script_bind, Script_ret.
  cbn. repeat case_match; simplify_eq/=; done.
Qed.

Ltac script_unfold :=
  unfold render_main_functionality, call_get_new_thought_type,
    call_run_reflect_thought, add_thought_status_msg, add_reflect_thought_response,
    trigger_chain_of_thought, get_new_thought, persist_session_state,
    save_to_session_state, clear_session, set_query_params, log_call, lift,
    modify_session, get_session, raise, with_session, mbind, mret, Script_bind,
    Script_ret in *.

Ltac script_cases :=
  script_unfold; cbn in *;
  repeat (first [ progress simplify_eq/= | case_match ]);
  rewrite ?display_responses_world; cbn.

(** Opens the world and the record, and splits on the branches of a run. *)
Ltac script_run w :=
  let s := fresh "s" in
  destruct w as [s ? ? ? ? ?]; destruct s as [? ? [] ? ? ? ? ? ?];
  cbn in *; simplify_eq/=; script_cases.

(** A run on a triggered chain keeps the chain triggered and leaves the id,
    the model, the index and the two flags as they were. *)
Lemma render_keeps_scalars REFLECT engine ui w :
  trigger_new_thought (session_data w) = true ->
  let s := session_data w in
  let s' := session_data (render_main_functionality REFLECT engine ui w).2 in
  trigger_new_thought s' = true /\ session_id s' = session_id s
  /\ thought_model s' = thought_model s
  /\ current_thought_index s' = current_thought_index s
  /\ thought_complete s' = thought_complete s
  /\ thought_had_error s' = thought_had_error s.
Proof. intros Ht. script_run w; done. Qed.

(** A run never invokes classify on a record whose kick-off is set, and on a
    triggered chain the kick-off stays. *)
Lemma render_kickoff_set REFLECT engine ui w k :
  new_thought (session_data w) = Some k ->
  let w' := (render_main_functionality REFLECT engine ui w).2 in
  count_calls is_classify (engine_log w') = count_calls is_classify (engine_log w)
  /\ (trigger_new_thought (session_data w) = true ->
      new_thought (session_data w') = Some k).
Proof.
  intros Hk. script_run w; rewrite ?count_calls_app; unfold count_calls; cbn;
    split; intros; first [done | lia].
Qed.

(** In one run the steps grow by exactly the step calls that returned. *)
Lemma render_steps_count REFLECT engine ui w :
  trigger_new_thought (session_data w) = true ->
  let w' := (render_main_functionality REFLECT engine ui w).2 in
  (length (this_thought_responses (session_data w'))
     + count_calls step_returned (engine_log w)
   = length (this_thought_responses (session_data w))
     + count_calls step_returned (engine_log w'))%nat.
Proof.
  intros Ht. script_run w; rewrite ?count_calls_app, ?length_app; unfold count_calls; cbn; lia.
Qed.

(** With the kick-off set, a run adds no classify call that returned. *)
Lemma render_kickoff_set_returned REFLECT engine ui w k :
  new_thought (session_data w) = Some k ->
  let w' := (render_main_functionality REFLECT engine ui w).2 in
  count_calls classify_returned (engine_log w')
  = count_calls classify_returned (engine_log w).
Proof.
  intros Hk. script_run w; rewrite ?count_calls_app; unfold count_calls; cbn; lia.
Qed.



(** ** Sequences of runs *)

Lemma run_chain_triggered REFLECT acts : forall w,
  trigger_new_thought (session_data w) = true ->
  trigger_new_thought (session_data (run_chain REFLECT acts w)) = true.
Proof.
  induction acts as [|a acts IH]; intros w Ht; cbn; [done|].
  apply IH. by apply render_keeps_scalars.
Qed.

Lemma run_chain_kickoff_set REFLECT acts : forall w k,
  trigger_new_thought (session_data w) = true ->
  new_thought (session_data w) = Some k ->
  let w' := run_chain REFLECT acts w in
  new_thought (session_data w') = Some k
  /\ count_calls is_classify (engine_log w') = count_calls is_classify (engine_log w)
  /\ count_calls classify_returned (engine_log w')
     = count_calls classify_returned (engine_log w).
Proof.
  induction acts as [|a acts IH]; intros w k Ht Hk; cbn; [done|].
  destruct (render_kickoff_set REFLECT (action_engine a) (action_ui a) w k Hk)
    as [Hc Hk'].
  pose proof (render_kickoff_set_returned REFLECT (action_engine a) (action_ui a) w k Hk)
    as Hr.
  pose proof (render_keeps_scalars REFLECT (action_engine a) (action_ui a) w Ht)
    as [Ht' _].
  cbn in *. destruct (IH _ k Ht' (Hk' Ht)) as (? & ? & ?).
  repeat split; congruence.
Qed.


Lemma run_chain_steps_count REFLECT acts : forall w,
  trigger_new_thought (session_data w) = true ->
  let w' := run_chain REFLECT acts w in
  (length (this_thought_responses (session_data w'))
     + count_calls step_returned (engine_log w)
   = length (this_thought_responses (session_data w))
     + count_calls step_returned (engine_log w'))%nat.
Proof.
  induction acts as [|a acts IH]; intros w Ht; cbn; [lia|].
  pose proof (render_keeps_scalars REFLECT (action_engine a) (action_ui a) w Ht)
    as [Ht' _].
  pose proof (render_steps_count REFLECT (action_engine a) (action_ui a) w Ht) as H1.
  specialize (IH _ Ht'). cbn in *. lia.
Qed.

(** If no step call returned in a run, the steps are what they were. *)
Lemma render_steps_unchanged REFLECT engine ui w :
  trigger_new_thought (session_data w) = true ->
  let w' := (render_main_functionality REFLECT engine ui w).2 in
  count_calls step_returned (engine_log w') = count_calls step_returned (engine_log w) ->
  this_thought_responses (session_data w') = this_thought_responses (session_data w).
Proof.
  intros Ht. script_run w; rewrite ?count_calls_app; unfold count_calls; cbn;
    first [done | lia].
Qed.

(** ** The thought chain *)

(** C6: over every sequence of runs on a triggered chain, the steps grow by
    exactly the number of step calls that returned (so a chain that starts
    with no steps and an empty call log ends with as many steps as step
    calls returned), and a run in which no step call returned leaves the
    steps as they were: a failed call appends nothing. *)
Theorem steps_count_returned_calls REFLECT (acts : list Action) (w : World) :
  trigger_new_thought (session_data w) = true ->
  let w' := run_chain REFLECT acts w in
  (length (this_thought_responses (session_data w'))
     + count_calls step_returned (engine_log w)
   = length (this_thought_responses (session_data w))
     + count_calls step_returned (engine_log w'))%nat
  /\ (this_thought_responses (session_data w) = [] -> engine_log w = [] ->
      length (this_thought_responses (session_data w'))
      = count_calls step_returned (engine_log w'))
  /\ (forall engine ui,
        let w1 := (render_main_functionality REFLECT engine ui w).2 in
        count_calls step_returned (engine_log w1)
        = count_calls step_returned (engine_log w) ->
        this_thought_responses (session_data w1)
        = this_thought_responses (session_data w)).
Proof.
  intros Ht w'.
  pose proof (run_chain_steps_count REFLECT acts w Ht) as Hn. cbn in Hn.
  split; [exact Hn|]. split.
  - intros Hs Hl. subst w'. rewrite Hs, Hl in Hn.
    change (count_calls step_returned []) with 0%nat in Hn. cbn in Hn. lia.
  - intros engine ui. by apply render_steps_unchanged.
Qed.

(** Continue, continue with the engine down, continue: two steps. *)
Lemma steps_count_returned_calls_witness :
  let w' := run_chain "reflect"
              [act_continue engine_ok; act_continue engine_down; act_continue engine_ok]
              (world_of record_triggered) in
  length (this_thought_responses (session_data w')) = 2%nat
  /\ count_calls step_returned (engine_log w') = 2%nat
  /\ length (engine_log w') = 4%nat.
Proof.
  pose proof (steps_count_returned_calls "reflect"
    [act_continue engine_ok; act_continue engine_down; act_continue engine_ok]
    (world_of record_triggered) eq_refl) as (_ & H & _).
  cbn zeta in *. specialize (H eq_refl eq_refl).
  split; [rewrite H|]; vm_compute; auto.
Defined.

(** A classify call that raises: the exception leaves the script body, and
    nothing of the record but the status log has changed; nothing is
    persisted. *)
Lemma render_classify_raised REFLECT engine ui w e :
  trigger_new_thought (session_data w) = true ->
  new_thought (session_data w) = None ->
  get_new_thought_type (engine (thought_model (session_data w))) = Raised e ->
  let s := session_data w in
  let r := render_main_functionality REFLECT engine ui w in
  r.1 = Raised e
  /\ new_thought (session_data r.2) = None
  /\ this_thought_responses (session_data r.2) = this_thought_responses s
  /\ session_dir r.2 = session_dir w
  /\ engine_log r.2 = engine_log w ++ [CallClassify (Raised e)].
Proof. intros Ht Hk He. script_run w; done. Qed.




(** C2 fails as stated: classify is executed more than once on one record.
    With the engine down, three runs of a triggered chain make three classify
    calls and leave the kick-off unset; with the engine down for two runs and
    back for the third, the record ends with its kick-off set after three
    classify calls. *)
Lemma failed_classify_is_executed_again :
  (let w' := run_chain "reflect"
               [act_idle engine_down; act_idle engine_down; act_idle engine_down]
               (world_of record_triggered) in
   count_calls is_classify (engine_log w') = 3%nat
   /\ new_thought (session_data w') = None
   /\ session_id (session_data w') = session_id record_triggered)
  /\ (let w' := run_chain "reflect"
                  [act_idle engine_down; act_idle engine_down; act_idle engine_ok]
                  (world_of record_triggered) in
      count_calls is_classify (engine_log w') = 3%nat
      /\ new_thought (session_data w') = Some kickoff_R1
      /\ session_id (session_data w') = session_id record_triggered).
Proof. cbn zeta. repeat split; vm_compute; reflexivity. Qed.

(** What a continue whose step call returns does to the record. *)
Lemma render_continue_returned REFLECT engine ui w k r :
  trigger_new_thought (session_data w) = true ->
  new_thought (session_data w) = Some k ->
  continue_clicked ui = true ->
  run_reflect_thought (engine (thought_model (session_data w))) (rationale k)
    (this_thought_responses (session_data w)) = Returned r ->
  let s := session_data w in
  let s' := session_data (render_main_functionality REFLECT engine ui w).2 in
  this_thought_responses s' = this_thought_responses s ++ [r]
  /\ new_thought s' = Some k
  /\ thought_status_msgs s'
     = match thought_status_msgs s with
       | [] => ["Thought initiated " +:+ session_id s;
                "Thought Model: " +:+ thought_model s]
       | _ :: _ => thought_status_msgs s
       end ++ ["Action: " +:+ reflect_response_type r].
Proof. intros Ht Hk Hc Hr. script_run w; done. Qed.

(** C1, as the code has it: a continue is handled the same whatever
    [thought_complete] is.  On a triggered chain with its kick-off set, a
    continue whose step call returns appends that response to the steps and an
    "Action" message to the status log; the kick-off, [thought_complete],
    [thought_had_error], the id, the model, the trigger flag and the index
    stay as they were. *)
Theorem continue_appends_whatever_completed REFLECT engine ui (w : World) k r :
  trigger_new_thought (session_data w) = true ->
  new_thought (session_data w) = Some k ->
  continue_clicked ui = true ->
  run_reflect_thought (engine (thought_model (session_data w))) (rationale k)
    (this_thought_responses (session_data w)) = Returned r ->
  let s := session_data w in
  let s' := session_data (render_main_functionality REFLECT engine ui w).2 in
  this_thought_responses s' = this_thought_responses s ++ [r]
  /\ new_thought s' = Some k
  /\ thought_status_msgs s'
     = match thought_status_msgs s with
       | [] => ["Thought initiated " +:+ session_id s;
                "Thought Model: " +:+ thought_model s]
       | _ :: _ => thought_status_msgs s
       end ++ ["Action: " +:+ reflect_response_type r]
  /\ thought_complete s' = thought_complete s
  /\ thought_had_error s' = thought_had_error s
  /\ session_id s' = session_id s
  /\ thought_model s' = thought_model s
  /\ trigger_new_thought s' = true
  /\ current_thought_index s' = current_thought_index s.
Proof.
  intros Ht Hk Hc Hr s s'.
  destruct (render_continue_returned REFLECT engine ui w k r Ht Hk Hc Hr)
    as (H1 & H2 & H3).
  destruct (render_keeps_scalars REFLECT engine ui w Ht) as (? & ? & ? & ? & ? & ?).
  repeat split; done.
Qed.

(** At a record whose [thought_complete] is set. *)
Lemma continue_appends_whatever_completed_witness :
  let s' := session_data
              (render_main_functionality "reflect" engine_ok ui_continue
                 (world_of record_completed)).2 in
  this_thought_responses s' = [step_of "final"; step_of "reflect"]
  /\ thought_complete s' = true.
Proof.
  destruct (continue_appends_whatever_completed "reflect" engine_ok ui_continue
              (world_of record_completed) kickoff_R1 (step_of "reflect")
              eq_refl eq_refl eq_refl eq_refl)
    as (H1 & _ & _ & H4 & _).
  split; [exact H1 | exact H4].
Defined.

(** C1 fails as stated: on a record with [thought_complete] set, a continue
    appends a step and a status message. *)
Lemma completed_continue_is_not_noop :
  thought_complete record_completed = true
  /\ let s' := session_data
                 (render_main_functionality "reflect" engine_ok ui_continue
                    (world_of record_completed)).2 in
     this_thought_responses record_completed = [step_of "final"]
     /\ this_thought_responses s' = [step_of "final"; step_of "reflect"]
     /\ length (thought_status_msgs s')
        = S (length (thought_status_msgs record_completed))
     /\ s' <> record_completed.
Proof.
  split; [reflexivity|]. cbn zeta.
  split; [reflexivity|]. split; [reflexivity|]. split; [reflexivity|].
  intros H. apply (f_equal (fun s => length (this_thought_responses s))) in H.
  vm_compute in H. discriminate.
Qed.

(** C5, as the code has it: when the classify call fails on a triggered chain
    without kick-off, the exception propagates out of the script body; the
    kick-off stays unset, the steps are unchanged (empty on a fresh chain),
    [thought_had_error] and the reported status are unchanged (no error state
    is entered), and the run writes nothing to durable storage. *)
Theorem classify_failure_propagates REFLECT engine ui (w : World) e :
  trigger_new_thought (session_data w) = true ->
  new_thought (session_data w) = None ->
  get_new_thought_type (engine (thought_model (session_data w))) = Raised e ->
  let s := session_data w in
  let r := render_main_functionality REFLECT engine ui w in
  r.1 = Raised e
  /\ new_thought (session_data r.2) = None
  /\ this_thought_responses (session_data r.2) = this_thought_responses s
  /\ thought_had_error (session_data r.2) = thought_had_error s
  /\ get_thought_status (session_data r.2) = get_thought_status s
  /\ session_dir r.2 = session_dir w.
Proof.
  intros Ht Hk He s r.
  destruct (render_classify_raised REFLECT engine ui w e Ht Hk He)
    as (H1 & H2 & H3 & H4 & _).
  destruct (render_keeps_scalars REFLECT engine ui w Ht) as (_ & _ & _ & _ & Hc & Hx).
  repeat split; try done.
  unfold get_thought_status. cbn in Hc, Hx. fold r in Hc, Hx. by rewrite Hc, Hx.
Qed.

Lemma classify_failure_propagates_witness :
  let r := render_main_functionality "reflect" engine_down ui_continue
             (world_of record_triggered) in
  r.1 = Raised (EngineError "engine unavailable")
  /\ this_thought_responses (session_data r.2) = []
  /\ session_dir r.2 = ∅.
Proof.
  destruct (classify_failure_propagates "reflect" engine_down ui_continue
              (world_of record_triggered) (EngineError "engine unavailable")
              eq_refl eq_refl eq_refl)
    as (H1 & _ & H3 & _ & _ & H6).
  split; [exact H1|]. split; [exact H3 | exact H6].
Defined.

(** C5 fails as stated: with the engine down at the classify call, the record
    does not get [thought_had_error] set, its status stays "running", and no
    record is persisted under its id. *)
Lemma classify_failure_sets_no_error :
  let r := render_main_functionality "reflect" engine_down ui_idle
             (world_of record_triggered) in
  r.1 = Raised (EngineError "engine unavailable")
  /\ thought_had_error (session_data r.2) = false
  /\ get_thought_status (session_data r.2) = running
  /\ session_dir r.2 !! session_id (session_data r.2) = None.
Proof. cbn zeta. repeat split; vm_compute; reflexivity. Qed.









(** C10: [get_thought_status] is a total function into the three statuses;
    it answers [error] whenever [thought_had_error] is set (also when
    [thought_complete] is set as well), [complete] when only
    [thought_complete] is set, and [running] when neither flag is set. *)
Theorem get_thought_status_spec (self : ThoughtData) :
  (get_thought_status self = error \/ get_thought_status self = complete
   \/ get_thought_status self = running)
  /\ (thought_had_error self = true -> get_thought_status self = error)
  /\ (thought_had_error self = false -> thought_complete self = true ->
      get_thought_status self = complete)
  /\ (thought_had_error self = false -> thought_complete self = false ->
      get_thought_status self = running).
Proof.
  unfold get_thought_status.
  destruct (thought_had_error self), (thought_complete self);
    repeat split; intros; try discriminate; auto.
Qed.

(** Both flags set: the status is [error]. *)
Lemma get_thought_status_spec_witness :
  thought_complete record_failed_and_complete = true
  /\ get_thought_status record_failed_and_complete = error.
Proof.
  split; [reflexivity|].
  destruct (get_thought_status_spec record_failed_and_complete) as (_ & H & _).
  apply H. reflexivity.
Defined.

(** The recent-thoughts view goes by file name alone: a record that is not
    complete is read when its file name comes first. *)
Lemma recent_view_reads_unfinished :
  let dir : gmap string ThoughtData :=
    {[ "t0.json" := record_completed; "t1.json" := record_resumed ]} in
  recent_session_files dir 1 = ["t1.json"]
  /\ thought_complete <$> dir !! "t1.json" = Some false
  /\ render_recent_thoughts_text dir 1 = Returned ["R1"].
Proof. cbn zeta. repeat split; vm_compute; reflexivity. Qed.

(** ** The cached listings *)

Section cache_data.
Context {K V S : Type} `{Countable K}.
Variables (ttl : Z) (body : K -> S -> V * S).

(** An entry younger than [ttl] is served, and nothing else happens. *)
Lemma cache_data_hit now k (c : gmap K (CacheEntry V)) (s : S) e :
  c !! k = Some e -> now < computed_at e + ttl ->
  cache_data ttl body now k (c, s) = (cached_value e, (c, s)).
Proof.
  intros He Hn. unfold cache_data. cbn. rewrite He.
  by rewrite decide_True.
Qed.

(** Without an entry, or with one of age [ttl] or more, the body runs and
    its value is stored with the current time. *)
Lemma cache_data_miss now k (c : gmap K (CacheEntry V)) (s : S) :
  (forall e, c !! k = Some e -> computed_at e + ttl <= now) ->
  cache_data ttl body now k (c, s)
  = ((body k s).1,
     (<[k := {| cached_value := (body k s).1; computed_at := now |}]> c,
      (body k s).2)).
Proof.
  intros He. unfold cache_data. cbn.
  destruct (c !! k) as [e|] eqn:Hk.
  - specialize (He e eq_refl). rewrite decide_False by lia.
    by destruct (body k s).
  - by destruct (body k s).
Qed.

(** After a call the cache holds the returned value under the key. *)
Lemma cache_data_entry now k (c : gmap K (CacheEntry V)) (s : S) :
  let r := cache_data ttl body now k (c, s) in
  exists t0, r.2.1 !! k = Some {| cached_value := r.1; computed_at := t0 |}
    /\ (r.2.2 = s \/ t0 = now).
Proof.
  unfold cache_data. cbn.
  destruct (c !! k) as [e|] eqn:Hk.
  - case_decide.
    + exists (computed_at e). cbn. rewrite Hk. destruct e; auto.
    + destruct (body k s) as [v s']. exists now. cbn.
      by rewrite lookup_insert_eq; auto.
  - destruct (body k s) as [v s']. exists now. cbn.
    by rewrite lookup_insert_eq; auto.
Qed.

(** A call touches the entry of its own key only. *)
Lemma cache_data_other now k k' (c : gmap K (CacheEntry V)) (s : S) :
  k' <> k -> (cache_data ttl body now k' (c, s)).2.1 !! k = c !! k.
Proof.
  intros Hne. unfold cache_data. cbn.
  destruct (c !! k') as [e|]; [case_decide|]; cbn; try done;
    destruct (body k' s); cbn; by rewrite lookup_insert_ne.
Qed.
End cache_data.

Section listings.
Context `{ThoughtModel}.

Lemma list_recent_hit num (u : UiState) e :
  recent_cache u !! num = Some e ->
  clock u < computed_at e + timedelta_seconds 5 ->
  _list_recent_thoughts num u = (cached_value e, u).
Proof.
  intros He Hn. unfold _list_recent_thoughts.
  rewrite (cache_data_hit _ _ _ _ _ _ e He Hn). by destruct u.
Qed.

Lemma list_recent_miss num (u : UiState) :
  (forall e, recent_cache u !! num = Some e ->
             computed_at e + timedelta_seconds 5 <= clock u) ->
  let v := map model_dump
             (take (Z.to_nat num)
                (merge_sort more_recent
                   (filter (fun t => completed t = true) (table (memory u))))) in
  _list_recent_thoughts num u
  = (v, {| clock := clock u;
           memory := {| table := table (memory u);
                        queries := queries (memory u) ++ [ListRecentlyCompleted num] |};
           recent_cache :=
             <[num := {| cached_value := v; computed_at := clock u |}]> (recent_cache u);
           incomplete_cache := incomplete_cache u |}).
Proof.
  intros He. unfold _list_recent_thoughts.
  by rewrite (cache_data_miss _ _ _ _ _ _ He).
Qed.

Lemma list_incomplete_hit (u : UiState) e :
  incomplete_cache u !! () = Some e ->
  clock u < computed_at e + timedelta_seconds 5 ->
  _list_incomplete_thoughts u = (cached_value e, u).
Proof.
  intros He Hn. unfold _list_incomplete_thoughts.
  rewrite (cache_data_hit _ _ _ _ _ _ e He Hn). by destruct u.
Qed.

Lemma list_incomplete_miss (u : UiState) :
  (forall e, incomplete_cache u !! () = Some e ->
             computed_at e + timedelta_seconds 5 <= clock u) ->
  let v := map model_dump
             (filter (fun t => completed t = false) (table (memory u))) in
  _list_incomplete_thoughts u
  = (v, {| clock := clock u;
           memory := {| table := table (memory u);
                        queries := queries (memory u) ++ [ListIncomplete] |};
           recent_cache := recent_cache u;
           incomplete_cache :=
             <[() := {| cached_value := v; computed_at := clock u |}]>
               (incomplete_cache u) |}).
Proof.
  intros He. unfold _list_incomplete_thoughts.
  by rewrite (cache_data_miss _ _ _ _ _ _ He).
Qed.

(** After a call the entry of its key holds the returned value, stamped
    with the current time if the store was queried. *)
Lemma list_recent_entry num (u : UiState) :
  let r := _list_recent_thoughts num u in
  exists t0,
    recent_cache r.2 !! num = Some {| cached_value := r.1; computed_at := t0 |}
    /\ (r.2 = u \/ t0 = clock u).
Proof.
  cbn zeta.
  destruct (recent_cache u !! num) as [e|] eqn:He;
    [destruct (decide (clock u < computed_at e + timedelta_seconds 5)) as [Hn|Hn]|].
  - rewrite (list_recent_hit num u e He Hn). exists (computed_at e). cbn.
    rewrite He. destruct e; auto.
  - rewrite list_recent_miss by (intros e' ?; simplify_eq; lia).
    exists (clock u). cbn. rewrite lookup_insert_eq. auto.
  - rewrite list_recent_miss by (intros e' ?; simplify_eq).
    exists (clock u). cbn. rewrite lookup_insert_eq. auto.
Qed.

Lemma list_incomplete_entry (u : UiState) :
  let r := _list_incomplete_thoughts u in
  exists t0,
    incomplete_cache r.2 !! () = Some {| cached_value := r.1; computed_at := t0 |}
    /\ (r.2 = u \/ t0 = clock u).
Proof.
  cbn zeta.
  destruct (incomplete_cache u !! ()) as [e|] eqn:He;
    [destruct (decide (clock u < computed_at e + timedelta_seconds 5)) as [Hn|Hn]|].
  - rewrite (list_incomplete_hit u e He Hn). exists (computed_at e). cbn.
    rewrite He. destruct e; auto.
  - rewrite list_incomplete_miss by (intros e' ?; simplify_eq; lia).
    exists (clock u). cbn. rewrite lookup_insert_eq. auto.
  - rewrite list_incomplete_miss by (intros e' ?; simplify_eq).
    exists (clock u). cbn. rewrite lookup_insert_eq. auto.
Qed.

(** A call with another argument leaves the entry of [num] alone. *)
Lemma list_recent_other num num' (u : UiState) :
  num' <> num ->
  recent_cache (_list_recent_thoughts num' u).2 !! num = recent_cache u !! num.
Proof.
  intros Hne. unfold _list_recent_thoughts.
  pose proof (cache_data_other (timedelta_seconds 5) _list_recent_thoughts_body
                (clock u) num num' (recent_cache u) (memory u) Hne) as Ho.
  destruct (cache_data _ _ _ _ _) as [v [c m]]. exact Ho.
Qed.
End listings.

(** C3: a call of [_list_recent_thoughts(num)] leaves an entry for [num]
    holding the returned value; its freshness window starts when the value
    was computed (now, if this call queried the store) and lasts five
    seconds.  A later call with the same [num] inside the window returns that
    value and changes nothing, the query log of the store included, whatever
    the store holds by then; a call once the window has expired queries the
    store, returns the listing of its current contents and stamps the entry
    with the current time; calls with another argument leave the entry alone.
    The same holds for [_list_incomplete_thoughts()], whose cache is separate
    from the first. *)
Theorem cached_listings_honor_window `{ThoughtModel} :
  (forall num (u1 : UiState),
     let r1 := _list_recent_thoughts num u1 in
     exists t0,
       recent_cache r1.2 !! num = Some {| cached_value := r1.1; computed_at := t0 |}
       /\ (r1.2 = u1 \/ t0 = clock u1)
       /\ (forall u2 : UiState,
             recent_cache u2 !! num = recent_cache r1.2 !! num ->
             clock u2 < t0 + timedelta_seconds 5 ->
             _list_recent_thoughts num u2 = (r1.1, u2))
       /\ (forall u2 : UiState,
             recent_cache u2 !! num = recent_cache r1.2 !! num ->
             t0 + timedelta_seconds 5 <= clock u2 ->
             let r2 := _list_recent_thoughts num u2 in
             r2.1 = map model_dump (list_recently_completed_thoughts num (memory u2)).1
             /\ queries (memory r2.2)
                = queries (memory u2) ++ [ListRecentlyCompleted num]
             /\ recent_cache r2.2 !! num
                = Some {| cached_value := r2.1; computed_at := clock u2 |})
       /\ (forall num' (u : UiState), num' <> num ->
             recent_cache (_list_recent_thoughts num' u).2 !! num
             = recent_cache u !! num)
       /\ incomplete_cache r1.2 = incomplete_cache u1)
  /\ (forall u1 : UiState,
        let r1 := _list_incomplete_thoughts u1 in
        exists t0,
          incomplete_cache r1.2 !! () = Some {| cached_value := r1.1; computed_at := t0 |}
          /\ (r1.2 = u1 \/ t0 = clock u1)
          /\ (forall u2 : UiState,
                incomplete_cache u2 !! () = incomplete_cache r1.2 !! () ->
                clock u2 < t0 + timedelta_seconds 5 ->
                _list_incomplete_thoughts u2 = (r1.1, u2))
          /\ (forall u2 : UiState,
                incomplete_cache u2 !! () = incomplete_cache r1.2 !! () ->
                t0 + timedelta_seconds 5 <= clock u2 ->
                let r2 := _list_incomplete_thoughts u2 in
                r2.1 = map model_dump (list_incomplete_thoughts (memory u2)).1
                /\ queries (memory r2.2) = queries (memory u2) ++ [ListIncomplete]
                /\ incomplete_cache r2.2 !! ()
                   = Some {| cached_value := r2.1; computed_at := clock u2 |})
          /\ recent_cache r1.2 = recent_cache u1).
Proof.
  split.
  - intros num u1 r1.
    destruct (list_recent_entry num u1) as (t0 & Hent & Hw). fold r1 in Hent, Hw.
    exists t0. split; [exact Hent|]. split; [exact Hw|].
    split; [|split; [|split]].
    + intros u2 Hc Hn. rewrite Hent in Hc.
      by rewrite (list_recent_hit num u2 _ Hc Hn).
    + intros u2 Hc Hx. cbn zeta.
      rewrite list_recent_miss.
      * cbn. by rewrite lookup_insert_eq.
      * intros e He. rewrite Hc, Hent in He. by simplify_eq.
    + intros num' u Hne. by apply list_recent_other.
    + subst r1. unfold _list_recent_thoughts.
      by destruct (cache_data _ _ _ _ _) as [v [c m]].
  - intros u1 r1.
    destruct (list_incomplete_entry u1) as (t0 & Hent & Hw). fold r1 in Hent, Hw.
    exists t0. split; [exact Hent|]. split; [exact Hw|].
    split; [|split].
    + intros u2 Hc Hn. rewrite Hent in Hc.
      by rewrite (list_incomplete_hit u2 _ Hc Hn).
    + intros u2 Hc Hx. cbn zeta.
      rewrite list_incomplete_miss.
      * cbn. by rewrite lookup_insert_eq.
      * intros e He. rewrite Hc, Hent in He. by simplify_eq.
    + subst r1. unfold _list_incomplete_thoughts.
      by destruct (cache_data _ _ _ _ _) as [v [c m]].
Qed.

(** A listing computed at time 0 over the sample table; the table is emptied
    afterwards.  One microsecond before the five seconds are over the old
    listing is served, at five seconds the store is queried again. *)
Lemma cached_listings_honor_window_witness :
  let u1 := sample_state 0 sample_table in
  let r1 := @_list_recent_thoughts sample_model 2 u1 in
  let u2 := later r1.2 4999999 [] in
  let u3 := later r1.2 5000000 [] in
  r1.1 = [("c", true, 30); ("a", true, 10)]
  /\ _list_recent_thoughts 2 u2 = (r1.1, u2)
  /\ (_list_recent_thoughts 2 u3).1 = []
  /\ queries (memory (_list_recent_thoughts 2 u3).2)
     = [ListRecentlyCompleted 2; ListRecentlyCompleted 2].
Proof.
  intros u1 r1 u2 u3.
  destruct (proj1 (@cached_listings_honor_window sample_model) 2 u1)
    as (t0 & Hent & _ & Hhit & Hexp & _).
  fold r1 in Hent, Hhit, Hexp.
  assert (t0 = 0) as ->.
  { vm_compute in Hent. by injection Hent. }
  split; [reflexivity|]. split.
  - apply Hhit; [reflexivity | vm_compute; reflexivity].
  - destruct (Hexp u3) as (Hv & Hq & _);
      [reflexivity | vm_compute; discriminate |].
    split; [exact Hv | exact Hq].
Defined.

(** ** The most recently completed thoughts *)

Section recency.
Context `{ThoughtModel}.

#[local] Instance more_recent_trans : Transitive more_recent.
Proof. unfold more_recent. intros x y z ? ?. lia. Qed.

#[local] Instance more_recent_total : Total more_recent.
Proof. unfold more_recent. intros x y. lia. Qed.

Lemma sorted_completed_perm (tbl : list Thought) :
  merge_sort more_recent (filter (fun t => completed t = true) tbl)
  ≡ₚ filter (fun t => completed t = true) tbl.
Proof. apply merge_sort_Permutation. Qed.

Lemma sorted_completed_sorted (tbl : list Thought) :
  StronglySorted more_recent
    (merge_sort more_recent (filter (fun t => completed t = true) tbl)).
Proof. apply StronglySorted_merge_sort; apply _. Qed.

(** What the store answers: completed records only, at most [num] of them
    and all of them if there are no more, most recent first, and none of
    the completed records left out is more recent than one returned. *)
Lemma list_recently_completed_top num (m : Memory) :
  let ts := (list_recently_completed_thoughts num m).1 in
  let finished := filter (fun t => completed t = true) (table m) in
  Forall (fun t => completed t = true) ts
  /\ length ts = Nat.min (Z.to_nat num) (length finished)
  /\ StronglySorted more_recent ts
  /\ exists rest,
       ts ++ rest ≡ₚ finished
       /\ forall x y, x ∈ ts -> y ∈ rest -> completed_at y <= completed_at x.
Proof.
  cbn. set (sorted := merge_sort more_recent _).
  pose proof (sorted_completed_perm (table m)) as Hp.
  pose proof (sorted_completed_sorted (table m)) as Hs.
  fold sorted in Hp, Hs.
  rewrite <- (take_drop (Z.to_nat num) sorted) in Hs.
  repeat split.
  - apply Forall_take. rewrite Hp. apply Forall_forall.
    intros t Ht. by apply list_elem_of_filter in Ht as [? _].
  - by rewrite length_take, Hp.
  - by apply StronglySorted_app_1_l in Hs.
  - exists (drop (Z.to_nat num) sorted). split.
    + by rewrite take_drop.
    + intros x y Hx Hy.
      apply (StronglySorted_app_1_elem_of more_recent _ _ x y Hs Hx Hy).
Qed.
End recency.

(** C8: the listing that [recently_completed(num)] computes from the store
    is the dump of the [num] most recently completed records: every record
    in it has [completed] set, there are [num] of them (all completed
    records, if the store holds fewer), ordered most recent first, and no
    completed record left out is more recent than one of them; a call of
    the cached view that finds no entry for [num] returns that listing. *)
Theorem recently_completed_top_n `{ThoughtModel} (num : Z) (m : Memory) :
  let ts := (list_recently_completed_thoughts num m).1 in
  let finished := filter (fun t => completed t = true) (table m) in
  (_list_recent_thoughts_body num m).1 = map model_dump ts
  /\ Forall (fun t => completed t = true) ts
  /\ length ts = Nat.min (Z.to_nat num) (length finished)
  /\ StronglySorted more_recent ts
  /\ (exists rest,
        ts ++ rest ≡ₚ finished
        /\ forall x y, x ∈ ts -> y ∈ rest -> completed_at y <= completed_at x)
  /\ (forall u : UiState,
        memory u = m -> recent_cache u !! num = None ->
        (_list_recent_thoughts num u).1 = map model_dump ts).
Proof.
  intros ts finished.
  destruct (list_recently_completed_top num m) as (Hc & Hl & Hs & Hr).
  split; [reflexivity|]. split; [exact Hc|]. split; [exact Hl|].
  split; [exact Hs|]. split; [exact Hr|].
  intros u <- Hn. rewrite list_recent_miss; [done|].
  intros e He. by rewrite Hn in He.
Qed.

(** On the sample table: of the three completed thoughts, the two latest. *)
Lemma recently_completed_top_n_witness :
  (@_list_recent_thoughts sample_model 2 (sample_state 0 sample_table)).1
  = [("c", true, 30); ("a", true, 10)].
Proof.
  destruct (@recently_completed_top_n sample_model 2
              (memory (sample_state 0 sample_table)))
    as (_ & _ & _ & _ & _ & Hu).
  exact (Hu (sample_state 0 sample_table) eq_refl eq_refl).
Defined.


(** ** More about one run and about sequences of runs *)

(** X1: while the chain has not been triggered, a run ends with
    [st.stop()] or a rerun and calls the engine not at all; with nothing
    submitted and nothing entered in the loader it stops and leaves the state
    as it is. *)
Theorem awaiting_never_calls_engine REFLECT engine ui (w : World) :
  trigger_new_thought (session_data w) = false ->
  let r := render_main_functionality REFLECT engine ui w in
  (r.1 = Raised StopException \/ r.1 = Raised RerunException)
  /\ engine_log r.2 = engine_log w
  /\ (form_submit ui = None -> text_thought_id ui = EmptyString ->
      select_thought_id ui = EmptyString ->
      r = (Raised StopException, w))
  /\ (forall model, form_submit ui = Some model ->
      r.1 = Raised RerunException
      /\ session_data r.2 = set_trigger true model (session_data w)
      /\ session_dir r.2 = session_dir w /\ query_s r.2 = query_s w).
Proof.
  intros Ht. destruct w as [s ss d q l sa]. destruct s. cbn in Ht. subst.
  script_cases; repeat split; intros; simplify_eq; auto; congruence.
Qed.

Lemma awaiting_never_calls_engine_witness :
  render_main_functionality "reflect" engine_ok ui_continue
    (world_of (ThoughtData_default "t1"))
  = (Raised StopException, world_of (ThoughtData_default "t1")).
Proof.
  destruct (awaiting_never_calls_engine "reflect" engine_ok ui_continue
              (world_of (ThoughtData_default "t1")) eq_refl) as (_ & _ & H & _).
  exact (H eq_refl eq_refl eq_refl).
Defined.

Ltac solve_prefix :=
  rewrite <- ?app_assoc;
  first [ by apply prefix_nil
        | done
        | by eexists
        | by exists []; rewrite app_nil_r
        | by eexists; cbn; rewrite <- ?app_assoc ].

(** In one run on a triggered chain the steps and the status log only grow
    at their end. *)
Lemma render_append_only REFLECT engine ui w :
  trigger_new_thought (session_data w) = true ->
  let s := session_data w in
  let s' := session_data (render_main_functionality REFLECT engine ui w).2 in
  this_thought_responses s `prefix_of` this_thought_responses s'
  /\ thought_status_msgs s `prefix_of` thought_status_msgs s'.
Proof. intros Ht. script_run w; split; solve_prefix. Qed.

Lemma run_chain_append_only REFLECT acts : forall w,
  trigger_new_thought (session_data w) = true ->
  let s := session_data w in
  let s' := session_data (run_chain REFLECT acts w) in
  this_thought_responses s `prefix_of` this_thought_responses s'
  /\ thought_status_msgs s `prefix_of` thought_status_msgs s'
  /\ session_id s' = session_id s
  /\ thought_model s' = thought_model s.
Proof.
  induction acts as [|a acts IH]; intros w Ht; cbn; [done|].
  pose proof (render_keeps_scalars REFLECT (action_engine a) (action_ui a) w Ht)
    as (Ht' & Hid & Hm & _).
  destruct (render_append_only REFLECT (action_engine a) (action_ui a) w Ht)
    as [Hs Hl].
  destruct (IH _ Ht') as (Hs' & Hl' & Hid' & Hm'). cbn in *.
  repeat split; [by etrans | by etrans | congruence | congruence].
Qed.

(** X2: the steps and the status log of a triggered chain are append-only:
    over every sequence of runs, whatever the engine does, the steps and the
    status messages held before are a prefix of those held after, and the id
    and the model of the record stay what they were. *)
Theorem chain_is_append_only REFLECT (acts : list Action) (w : World) :
  trigger_new_thought (session_data w) = true ->
  let s := session_data w in
  let s' := session_data (run_chain REFLECT acts w) in
  this_thought_responses s `prefix_of` this_thought_responses s'
  /\ thought_status_msgs s `prefix_of` thought_status_msgs s'
  /\ session_id s' = session_id s
  /\ thought_model s' = thought_model s.
Proof. intros Ht. by apply run_chain_append_only. Qed.

Lemma chain_is_append_only_witness :
  let s' := session_data
              (run_chain "reflect" [act_continue engine_ok; act_continue engine_down]
                 (world_of record_resumed)) in
  this_thought_responses record_resumed `prefix_of` this_thought_responses s'
  /\ thought_status_msgs record_resumed `prefix_of` thought_status_msgs s'.
Proof.
  destruct (chain_is_append_only "reflect"
              [act_continue engine_ok; act_continue engine_down]
              (world_of record_resumed) eq_refl) as (H1 & H2 & _).
  split; [exact H1 | exact H2].
Defined.

Lemma replay_steps_app steps log1 log2 :
  replay_steps steps (log1 ++ log2)
  = replay_steps steps log1 ≫= fun steps' => replay_steps steps' log2.
Proof.
  revert steps. induction log1 as [|c log1 IH]; intros steps; cbn; [done|].
  destruct c as [res|rat history res]; [apply IH|].
  case_decide; [|done]. destruct res; apply IH.
Qed.

(** The calls of one run: they extend the log, replaying them over the steps
    held before gives the steps held after, and a step call is given the
    rationale of the kick-off. *)
Lemma render_replay REFLECT engine ui w :
  trigger_new_thought (session_data w) = true ->
  let w' := (render_main_functionality REFLECT engine ui w).2 in
  exists new,
    engine_log w' = engine_log w ++ new
    /\ replay_steps (this_thought_responses (session_data w)) new
       = Some (this_thought_responses (session_data w'))
    /\ Forall (given_rationale_of (new_thought (session_data w'))) new.
Proof.
  intros Ht.
  script_run w; rewrite <- ?app_assoc;
    first [ exists []; rewrite app_nil_r; split; [reflexivity|]
          | eexists; split; [reflexivity|] ];
    cbn; rewrite ?decide_True by done;
    (split; [reflexivity|]); repeat constructor.
Qed.

Lemma given_rationale_of_kept ko ko' (log : list EngineCall) :
  (forall k, ko = Some k -> ko' = Some k) ->
  Forall (given_rationale_of ko) log -> Forall (given_rationale_of ko') log.
Proof.
  intros Hk Hf. eapply Forall_impl; [exact Hf|].
  intros c. unfold given_rationale_of.
  destruct (call_rationale c); [|done].
  destruct ko as [k|]; [|done]. by rewrite (Hk k eq_refl).
Qed.

Lemma run_chain_replay REFLECT acts : forall w,
  trigger_new_thought (session_data w) = true ->
  let w' := run_chain REFLECT acts w in
  exists new,
    engine_log w' = engine_log w ++ new
    /\ replay_steps (this_thought_responses (session_data w)) new
       = Some (this_thought_responses (session_data w'))
    /\ Forall (given_rationale_of (new_thought (session_data w'))) new.
Proof.
  induction acts as [|a acts IH]; intros w Ht; cbn.
  - exists []. by rewrite app_nil_r.
  - pose proof (render_keeps_scalars REFLECT (action_engine a) (action_ui a) w Ht)
      as (Ht' & _).
    destruct (render_replay REFLECT (action_engine a) (action_ui a) w Ht)
      as (new1 & Hl1 & Hr1 & Hg1).
    destruct (IH _ Ht') as (new2 & Hl2 & Hr2 & Hg2). cbn in *.
    exists (new1 ++ new2). split; [|split].
    + by rewrite Hl2, Hl1, app_assoc.
    + by rewrite replay_steps_app, Hr1.
    + apply Forall_app. split; [|done].
      eapply given_rationale_of_kept; [|exact Hg1].
      intros k Hk. by apply (run_chain_kickoff_set REFLECT acts _ k Ht' Hk).
Qed.

(** X3: over every sequence of runs of a triggered chain, the steps are the
    engine log replayed: each step call was given the full list of steps held
    when it was made and the rationale of the kick-off, and the steps grow by
    the responses of the step calls that returned, in the order of the
    calls. *)
Theorem steps_replay_engine_log REFLECT (acts : list Action) (w : World) :
  trigger_new_thought (session_data w) = true ->
  let w' := run_chain REFLECT acts w in
  exists new,
    engine_log w' = engine_log w ++ new
    /\ replay_steps (this_thought_responses (session_data w)) new
       = Some (this_thought_responses (session_data w'))
    /\ Forall (given_rationale_of (new_thought (session_data w'))) new.
Proof. intros Ht. by apply run_chain_replay. Qed.

Lemma steps_replay_engine_log_witness :
  let w' := run_chain "reflect"
              [act_continue engine_ok; act_continue engine_down; act_continue engine_ok]
              (world_of record_triggered) in
  replay_steps [] (engine_log w') = Some (this_thought_responses (session_data w')).
Proof.
  destruct (steps_replay_engine_log "reflect"
              [act_continue engine_ok; act_continue engine_down; act_continue engine_ok]
              (world_of record_triggered) eq_refl) as (new & Hl & Hr & _).
  cbn zeta. rewrite Hl. exact Hr.
Defined.

(** X4: a run on a triggered chain makes at most two engine calls, and two
    only as a classify call that returned followed by a step call.  If the
    run returns normally no call of it raised; if it ends in an exception,
    that exception was raised by its last engine call, or it is the
    [ValueError] of the display block for a kick-off whose type is not
    [REFLECT], raised with steps present and after all calls returned, or it
    is the error of a write to a session directory that does not accept
    writes, raised after an engine call returned. *)
Theorem triggered_run_calls_and_exceptions REFLECT engine ui (w : World) :
  trigger_new_thought (session_data w) = true ->
  let r := render_main_functionality REFLECT engine ui w in
  exists new,
    engine_log r.2 = engine_log w ++ new
    /\ (new = [] \/ (exists c, new = [c])
        \/ exists k rat history res,
             new = [CallClassify (Returned k); CallStep rat history res])
    /\ (r.1 = Returned tt -> Forall (fun c => call_raised c = None) new)
    /\ (forall e, r.1 = Raised e ->
          last new ≫= call_raised = Some e
          \/ (Forall (fun c => call_raised c = None) new
              /\ this_thought_responses (session_data r.2) <> []
              /\ exists k, new_thought (session_data r.2) = Some k
                   /\ response_type k <> REFLECT
                   /\ e = ValueError ("Unsupported thought_type: " +:+ response_type k))
          \/ (e = StoreError "cannot write the session file"
              /\ store_available w = false
              /\ Forall (fun c => call_raised c = None) new
              /\ new <> [])).
Proof.
  intros Ht.
  destruct w as [s ss d q l sa]; destruct s as [? ? [] ko steps ? ? ? msgs];
    cbn in Ht; simplify_eq.
  unfold render_main_functionality, display_responses.
  script_unfold; cbn.
  repeat (first [ progress simplify_eq/= | case_match ]);
    try (match goal with
         | H : ?x ++ [_] = [] |- _ => destruct x; discriminate H
         end);
    rewrite <- ?app_assoc;
    first [ exists []; rewrite app_nil_r; split; [reflexivity|]
          | eexists; split; [reflexivity|] ];
    (split; [naive_solver|]); cbn;
    (split; [intros; simplify_eq; repeat constructor|]);
    intros e' He'; simplify_eq;
    first [ by left
          | right; left; split; [repeat constructor|];
            split; [done|]; eexists; done
          | right; right; split; [done|]; split; [done|];
            split; [repeat constructor|]; done ].
Qed.

Lemma triggered_run_calls_and_exceptions_witness :
  let r := render_main_functionality "other" engine_ok ui_continue
             (world_of record_triggered) in
  r.1 = Raised (ValueError "Unsupported thought_type: reflect")
  /\ (length (engine_log r.2) <= 2)%nat.
Proof.
  destruct (triggered_run_calls_and_exceptions "other" engine_ok ui_continue
              (world_of record_triggered) eq_refl) as (new & Hl & Hs & _).
  split; [reflexivity|]. cbn zeta. rewrite Hl.
  destruct Hs as [->|[[c ->]|(k & rat & h & res & ->)]]; cbn; lia.
Defined.

(** A run writes no file but the one of its own session id, and every
    record it writes has its kick-off set. *)
Lemma render_writes_own_record REFLECT engine ui w :
  trigger_new_thought (session_data w) = true ->
  let w' := (render_main_functionality REFLECT engine ui w).2 in
  (forall id', id' <> session_id (session_data w) ->
     session_dir w' !! id' = session_dir w !! id')
  /\ (map_Forall (fun _ r => is_Some (new_thought r)) (session_dir w) ->
      map_Forall (fun _ r => is_Some (new_thought r)) (session_dir w')).
Proof.
  intros Ht. script_run w; split;
    first [ by intros; rewrite ?lookup_insert_ne by done
          | intros; repeat (apply map_Forall_insert_2; [by eexists|]); done ].
Qed.

(** X5: over every sequence of runs of a triggered chain the only file of
    the session directory that is written is the one of the chain's own id,
    and if every stored record had its kick-off set before, every stored
    record has it set after: a record is persisted only once it is
    classified. *)
Theorem chain_writes_own_record REFLECT (acts : list Action) (w : World) :
  trigger_new_thought (session_data w) = true ->
  let w' := run_chain REFLECT acts w in
  (forall id', id' <> session_id (session_data w) ->
     session_dir w' !! id' = session_dir w !! id')
  /\ (map_Forall (fun _ r => is_Some (new_thought r)) (session_dir w) ->
      map_Forall (fun _ r => is_Some (new_thought r)) (session_dir w')).
Proof.
  revert w. induction acts as [|a acts IH]; intros w Ht; cbn; [done|].
  pose proof (render_keeps_scalars REFLECT (action_engine a) (action_ui a) w Ht)
    as (Ht' & Hid & _).
  destruct (render_writes_own_record REFLECT (action_engine a) (action_ui a) w Ht)
    as [Ho Hk].
  destruct (IH _ Ht') as [Ho' Hk']. cbn in *. split.
  - intros id' Hne. rewrite Ho' by congruence. by apply Ho.
  - auto.
Qed.

(** A chain of another session is running; the record of [t0] is on disk. *)
Lemma chain_writes_own_record_witness :
  let w := {| session_data := record_triggered; session_state := None;
              session_dir := {[ "t0" := record_completed ]};
              query_s := "t1"; engine_log := [];
              store_available := true |} in
  session_dir (run_chain "reflect" [act_continue engine_ok; act_continue engine_ok] w)
    !! "t0"
  = Some record_completed.
Proof.
  intros w.
  destruct (chain_writes_own_record "reflect"
              [act_continue engine_ok; act_continue engine_ok] w eq_refl) as [H _].
  rewrite (H "t0"); [reflexivity | discriminate].
Defined.

(** A run without the button pressed, on a chain that is classified and has
    its first status messages, changes nothing. *)
Lemma render_idle_noop REFLECT engine ui w k :
  trigger_new_thought (session_data w) = true ->
  new_thought (session_data w) = Some k ->
  thought_status_msgs (session_data w) <> [] ->
  continue_clicked ui = false ->
  (render_main_functionality REFLECT engine ui w).2 = w.
Proof. intros Ht Hk Hm Hc. script_run w; done. Qed.

(** X6: re-running the script without pressing the continue button is
    idempotent.  On a triggered chain that is classified and has status
    messages, any sequence of such runs leaves the whole state as it is: the
    record, the session state, the session directory and the engine log (no
    engine call is made). *)
Theorem idle_reruns_change_nothing REFLECT (acts : list Action) (w : World) k :
  trigger_new_thought (session_data w) = true ->
  new_thought (session_data w) = Some k ->
  thought_status_msgs (session_data w) <> [] ->
  Forall (fun a => continue_clicked (action_ui a) = false) acts ->
  run_chain REFLECT acts w = w.
Proof.
  intros Ht Hk Hm Hacts. induction Hacts as [|a acts Ha _ IH]; cbn; [done|].
  by rewrite (render_idle_noop REFLECT (action_engine a) (action_ui a) w k).
Qed.

Lemma idle_reruns_change_nothing_witness :
  run_chain "reflect" [act_idle engine_ok; act_idle engine_down; act_idle engine_ok]
    (world_of record_resumed)
  = world_of record_resumed.
Proof.
  apply (idle_reruns_change_nothing "reflect" _ (world_of record_resumed) kickoff_R1);
    [reflexivity | reflexivity | discriminate | repeat constructor].
Defined.

Lemma render_unsupported_type REFLECT engine ui w k :
  trigger_new_thought (session_data w) = true ->
  new_thought (session_data w) = Some k ->
  response_type k <> REFLECT ->
  store_available w = true ->
  let s := session_data w in
  let r := render_main_functionality REFLECT engine ui w in
  (forall resp,
     continue_clicked ui = true ->
     run_reflect_thought (engine (thought_model s)) (rationale k)
       (this_thought_responses s) = Returned resp ->
     r.1 = Raised (ValueError ("Unsupported thought_type: " +:+ response_type k))
     /\ this_thought_responses (session_data r.2) = this_thought_responses s ++ [resp]
     /\ session_dir r.2 !! session_id s = Some (session_data r.2))
  /\ (continue_clicked ui = false -> this_thought_responses s <> [] ->
      r.1 = Raised (ValueError ("Unsupported thought_type: " +:+ response_type k))).
Proof.
  intros Ht Hk Hne Hs.
  script_run w; split; intros; simplify_eq;
    unfold display_responses; script_unfold; cbn;
    repeat (first [ progress simplify_eq/= | case_match ]);
    try (match goal with
         | H : ?x ++ [_] = [] |- _ => destruct x; discriminate H
         end);
    rewrite ?lookup_insert_eq; done.
Qed.

(** X7: a kick-off whose type is not [REFLECT] is rejected only by the
    display block, after the work is done.  With a session directory that
    accepts writes, a continue on such a chain whose step call returns ends
    in [ValueError], yet the response has been appended to the steps and the
    record persisted; and once steps are present, every run without the
    button pressed ends in that [ValueError]. *)
Theorem unsupported_type_fails_after_saving REFLECT engine ui (w : World) k :
  trigger_new_thought (session_data w) = true ->
  new_thought (session_data w) = Some k ->
  response_type k <> REFLECT ->
  store_available w = true ->
  let s := session_data w in
  let r := render_main_functionality REFLECT engine ui w in
  (forall resp,
     continue_clicked ui = true ->
     run_reflect_thought (engine (thought_model s)) (rationale k)
       (this_thought_responses s) = Returned resp ->
     r.1 = Raised (ValueError ("Unsupported thought_type: " +:+ response_type k))
     /\ this_thought_responses (session_data r.2) = this_thought_responses s ++ [resp]
     /\ session_dir r.2 !! session_id s = Some (session_data r.2))
  /\ (continue_clicked ui = false -> this_thought_responses s <> [] ->
      r.1 = Raised (ValueError ("Unsupported thought_type: " +:+ response_type k))).
Proof. intros Ht Hk Hne Hs. by apply render_unsupported_type. Qed.

Lemma unsupported_type_fails_after_saving_witness :
  let r := render_main_functionality "act" engine_ok ui_continue
             (world_of record_resumed) in
  r.1 = Raised (ValueError "Unsupported thought_type: reflect")
  /\ this_thought_responses (session_data r.2) = [step_of "reflect"; step_of "reflect"]
  /\ session_dir r.2 !! "t1" = Some (session_data r.2).
Proof.
  destruct (unsupported_type_fails_after_saving "act" engine_ok ui_continue
              (world_of record_resumed) kickoff_R1 eq_refl eq_refl)
    as [H _]; [discriminate | reflexivity |].
  exact (H (step_of "reflect") eq_refl eq_refl).
Defined.

(** Submitting the form while the chain is not triggered. *)
Lemma render_trigger REFLECT engine ui w model :
  trigger_new_thought (session_data w) = false ->
  form_submit ui = Some model ->
  render_main_functionality REFLECT engine ui w
  = (Raised RerunException, with_session (set_trigger true model) w).
Proof.
  intros Ht Hf. destruct w as [s ss d q l sa]; destruct s; cbn in *; simplify_eq.
  script_cases; done.
Qed.

(** The first run of a triggered chain, with the classify call returning and
    the button not pressed. *)
Lemma render_first_run REFLECT engine ui w k :
  trigger_new_thought (session_data w) = true ->
  new_thought (session_data w) = None ->
  this_thought_responses (session_data w) = [] ->
  thought_status_msgs (session_data w) = [] ->
  continue_clicked ui = false ->
  get_new_thought_type (engine (thought_model (session_data w))) = Returned k ->
  store_available w = true ->
  let s := session_data w in
  let r := render_main_functionality REFLECT engine ui w in
  r.1 = Returned tt
  /\ session_data r.2
     = set_thought_status_msgs
         ["Thought initiated " +:+ session_id s;
          "Thought Model: " +:+ thought_model s;
          "Thought Type: " +:+ response_type k]
         (set_new_thought (Some k) s)
  /\ engine_log r.2 = engine_log w ++ [CallClassify (Returned k)]
  /\ session_dir r.2 = <[session_id s := session_data r.2]> (session_dir w)
  /\ session_state r.2 = Some (session_data r.2).
Proof.
  intros Ht Hk Hs Hm Hc He Hsa.
  destruct w as [s ss d q l sa]; destruct s; cbn in *; simplify_eq.
  unfold render_main_functionality, display_responses. script_unfold. cbn.
  rewrite He. cbn. rewrite Hc. cbn. done.
Qed.

(** X8: triggering a fresh chain and the run that follows.  From a record
    that is not triggered and has neither kick-off, steps nor status
    messages, submitting the form with a model and then running with an
    engine whose classify call returns [k] (button not pressed) returns
    normally with: the model and the kick-off set, the three status messages
    "Thought initiated <id>", "Thought Model: <model>", "Thought Type: <type>"
    in this order, no steps, exactly one engine call, and the record written
    to the session directory under its id (the directory accepting writes)
    and to the session state. *)
Theorem trigger_then_first_run REFLECT engine1 engine2 ui1 ui2 (w : World) model k :
  trigger_new_thought (session_data w) = false ->
  new_thought (session_data w) = None ->
  this_thought_responses (session_data w) = [] ->
  thought_status_msgs (session_data w) = [] ->
  form_submit ui1 = Some model ->
  continue_clicked ui2 = false ->
  get_new_thought_type (engine2 model) = Returned k ->
  store_available w = true ->
  let s := session_data w in
  let w1 := (render_main_functionality REFLECT engine1 ui1 w).2 in
  let r2 := render_main_functionality REFLECT engine2 ui2 w1 in
  r2.1 = Returned tt
  /\ session_data r2.2
     = set_thought_status_msgs
         ["Thought initiated " +:+ session_id s; "Thought Model: " +:+ model;
          "Thought Type: " +:+ response_type k]
         (set_new_thought (Some k) (set_trigger true model s))
  /\ this_thought_responses (session_data r2.2) = []
  /\ engine_log r2.2 = engine_log w ++ [CallClassify (Returned k)]
  /\ session_dir r2.2 = <[session_id s := session_data r2.2]> (session_dir w)
  /\ session_state r2.2 = Some (session_data r2.2).
Proof.
  intros Ht Hk Hs Hm Hf Hc He Hsa s w1 r2. subst w1 r2.
  rewrite (render_trigger REFLECT engine1 ui1 w model Ht Hf). cbn [snd].
  destruct (render_first_run REFLECT engine2 ui2
              (with_session (set_trigger true model) w) k)
    as (H1 & H2 & H3 & H4 & H5); try done.
  split; [exact H1|]. split; [exact H2|]. split; [by rewrite H2|].
  split; [exact H3|]. split; [exact H4 | exact H5].
Qed.

Lemma trigger_then_first_run_witness :
  let ui1 := {| form_submit := Some "gpt-4"; text_thought_id := EmptyString;
                select_thought_id := EmptyString; continue_clicked := false |} in
  let w1 := (render_main_functionality "reflect" engine_down ui1
               (world_of (ThoughtData_default "t1"))).2 in
  let r2 := render_main_functionality "reflect" engine_ok ui_idle w1 in
  thought_status_msgs (session_data r2.2)
  = ["Thought initiated t1"; "Thought Model: gpt-4"; "Thought Type: reflect"]
  /\ new_thought (session_data r2.2) = Some kickoff_R1.
Proof.
  intros ui1 w1 r2.
  destruct (trigger_then_first_run "reflect" engine_down engine_ok ui1 ui_idle
              (world_of (ThoughtData_default "t1")) "gpt-4" kickoff_R1
              eq_refl eq_refl eq_refl eq_refl eq_refl eq_refl eq_refl eq_refl)
    as (_ & Hs & _).
  fold w1 r2 in Hs. rewrite Hs. split; reflexivity.
Defined.

(** ** The recent-thoughts view *)

Lemma string_compare_refl (a : string) : String.compare a a = Eq.
Proof.
  induction a as [|c a IH]; cbn; [done|].
  unfold Ascii.compare. by rewrite N.compare_refl.
Qed.

Lemma string_compare_lt_trans (a b c : string) :
  String.compare a b = Lt -> String.compare b c = Lt -> String.compare a c = Lt.
Proof.
  revert b c. induction a as [|x a IH]; intros [|y b] [|z c]; cbn; try done.
  unfold Ascii.compare.
  destruct (N.compare_spec (Ascii.N_of_ascii x) (Ascii.N_of_ascii y)) as [Hxy|Hxy|Hxy];
    destruct (N.compare_spec (Ascii.N_of_ascii y) (Ascii.N_of_ascii z)) as [Hyz|Hyz|Hyz];
    try done; intros H1 H2.
  - rewrite Hxy, Hyz, N.compare_refl. by apply (IH b c).
  - by rewrite Hxy, (proj2 (N.compare_lt_iff _ _) Hyz).
  - by rewrite <- Hyz, (proj2 (N.compare_lt_iff _ _) Hxy).
  - assert (Ascii.N_of_ascii x < Ascii.N_of_ascii z)%N as Hxz by lia.
    by rewrite (proj2 (N.compare_lt_iff _ _) Hxz).
Qed.

Lemma string_leb_trans (a b c : string) :
  String.leb a b = true -> String.leb b c = true -> String.leb a c = true.
Proof.
  unfold String.leb.
  destruct (String.compare a b) eqn:Hab; [| |done];
    destruct (String.compare b c) eqn:Hbc; try done; intros _ _.
  - apply String.compare_eq_iff in Hab, Hbc. subst. by rewrite string_compare_refl.
  - apply String.compare_eq_iff in Hab. subst. by rewrite Hbc.
  - apply String.compare_eq_iff in Hbc. subst. by rewrite Hab.
  - by rewrite (string_compare_lt_trans a b c).
Qed.

#[local] Instance name_after_trans : Transitive name_after.
Proof. intros a b c Hab Hbc. unfold name_after in *. by apply (string_leb_trans c b a). Qed.

#[local] Instance name_after_total : Total name_after.
Proof. intros a b. unfold name_after. destruct (String.leb_total b a); auto. Qed.

Lemma slice_to_prefix {A} n (l : list A) : slice_to n l `prefix_of` l.
Proof. unfold slice_to. case_decide; apply prefix_take. Qed.

Lemma slice_to_length {A} n (l : list A) :
  length (slice_to n l)
  = if decide (0 <= n) then Nat.min (Z.to_nat n) (length l)
    else (length l - Z.to_nat (- n))%nat.
Proof. unfold slice_to. case_decide; rewrite length_take; lia. Qed.

Lemma sorted_names_perm (dir : gmap string ThoughtData) :
  merge_sort name_after (map fst (map_to_list dir)) ≡ₚ map fst (map_to_list dir).
Proof. apply merge_sort_Permutation. Qed.

Lemma sorted_names_elem (dir : gmap string ThoughtData) name :
  name ∈ merge_sort name_after (map fst (map_to_list dir)) <-> is_Some (dir !! name).
Proof.
  rewrite sorted_names_perm, list_elem_of_fmap. split.
  - intros [[k r] [-> Hkr]]. apply elem_of_map_to_list in Hkr. by eexists.
  - intros [r Hr]. exists (name, r). split; [done|]. by apply elem_of_map_to_list.
Qed.

(** X9: the files the recent-thoughts view reads are the first names of the
    directory in descending order: each is a file of the directory, none is
    read twice, they are in descending order, no file left out has a name
    after one that is read, and there are [min n (number of files)] of them
    for [n >= 0], while a negative [n] leaves out the last [-n] names. *)
Theorem recent_files_are_last_names (dir : gmap string ThoughtData) (n : Z) :
  let sel := recent_session_files dir n in
  (forall name, name ∈ sel -> is_Some (dir !! name))
  /\ NoDup sel
  /\ StronglySorted name_after sel
  /\ (forall x y, x ∈ sel -> is_Some (dir !! y) -> y ∉ sel -> String.leb y x = true)
  /\ length sel
     = if decide (0 <= n) then Nat.min (Z.to_nat n) (size dir)
       else (size dir - Z.to_nat (- n))%nat.
Proof.
  cbn zeta. unfold recent_session_files.
  set (sorted := merge_sort name_after (map fst (map_to_list dir))).
  destruct (slice_to_prefix n sorted) as [rest Hrest].
  assert (StronglySorted name_after sorted) as Hs
    by (apply StronglySorted_merge_sort; apply _).
  assert (NoDup sorted) as Hnd.
  { unfold sorted. rewrite sorted_names_perm. apply NoDup_fst_map_to_list. }
  assert (length sorted = size dir) as Hlen.
  { unfold sorted. by rewrite sorted_names_perm, length_map, length_map_to_list. }
  rewrite Hrest in Hs, Hnd.
  split; [|split; [|split; [|split]]].
  - intros name Hin. apply sorted_names_elem. fold sorted. rewrite Hrest.
    apply elem_of_app. by left.
  - by apply NoDup_app in Hnd as (? & _ & _).
  - by apply StronglySorted_app_1_l in Hs.
  - intros x y Hx Hy Hny. apply sorted_names_elem in Hy. fold sorted in Hy.
    rewrite Hrest in Hy. apply elem_of_app in Hy as [Hy|Hy]; [done|].
    apply (StronglySorted_app_1_elem_of name_after _ _ x y Hs Hx Hy).
  - by rewrite slice_to_length, Hlen.
Qed.

Lemma recent_files_are_last_names_witness :
  recent_session_files
    {[ "t0.json" := record_completed; "t1.json" := record_resumed;
       "t2.json" := record_no_msgs ]} 2
  = ["t2.json"; "t1.json"].
Proof.
  destruct (recent_files_are_last_names
              {[ "t0.json" := record_completed; "t1.json" := record_resumed;
                 "t2.json" := record_no_msgs ]} 2) as (_ & _ & _ & _ & Hl).
  vm_compute in Hl. vm_compute. reflexivity.
Defined.

Lemma collect_rationales_returned objs :
  Forall (fun obj => is_Some (new_thought obj)) objs ->
  exists ks,
    Forall2 (fun obj k => new_thought obj = Some k) objs ks
    /\ collect_rationales objs = Returned (map rationale ks).
Proof.
  induction 1 as [|obj objs [k Hk] _ (ks & Hks & IH)]; cbn.
  - exists []. by split; [constructor|].
  - exists (k :: ks). rewrite Hk, IH. by split; [constructor|].
Qed.

Lemma collect_rationales_raised objs :
  Exists (fun obj => new_thought obj = None) objs ->
  collect_rationales objs = Raised AttributeError.
Proof.
  induction 1 as [obj objs Hk|obj objs _ IH]; cbn.
  - by rewrite Hk.
  - destruct (new_thought obj); [by rewrite IH|done].
Qed.

(** The records behind names that are all files of the directory. *)
Lemma lookup_all (dir : gmap string ThoughtData) names :
  Forall (fun name => is_Some (dir !! name)) names ->
  Forall2 (fun name obj => dir !! name = Some obj) names
    (omap (fun name => dir !! name) names).
Proof.
  induction 1 as [|name names [obj Hobj] _ IH]; cbn; [constructor|].
  rewrite Hobj. by constructor.
Qed.

(** X10: the recent-thoughts view collects the rationale of the kick-off of
    every file it reads, in the order of the files, when each of those
    records has a kick-off; if one of them has none, reading its rationale
    raises [AttributeError] and the view shows nothing.  In particular the
    view never fails on a directory in which every record has its kick-off
    set. *)
Theorem recent_view_collects_rationales (dir : gmap string ThoughtData) (n : Z) :
  let sel := recent_session_files dir n in
  ((forall name r, name ∈ sel -> dir !! name = Some r -> is_Some (new_thought r)) ->
   exists ks,
     Forall2 (fun name k => exists r, dir !! name = Some r /\ new_thought r = Some k)
       sel ks
     /\ render_recent_thoughts_text dir n = Returned (map rationale ks))
  /\ ((exists name r, name ∈ sel /\ dir !! name = Some r /\ new_thought r = None) ->
      render_recent_thoughts_text dir n = Raised AttributeError)
  /\ (map_Forall (fun _ r => is_Some (new_thought r)) dir ->
      exists text, render_recent_thoughts_text dir n = Returned text
                   /\ length text = length sel).
Proof.
  intros sel.
  assert (Forall (fun name => is_Some (dir !! name)) sel) as Hin.
  { apply Forall_forall. intros name Hn.
    apply sorted_names_elem.
    destruct (slice_to_prefix n (merge_sort name_after (map fst (map_to_list dir))))
      as [rest Hrest].
    unfold sel, recent_session_files in Hn. rewrite Hrest.
    apply elem_of_app. by left. }
  pose proof (lookup_all dir sel Hin) as Hobjs.
  assert (forall P : ThoughtData -> Prop,
            (forall name r, name ∈ sel -> dir !! name = Some r -> P r) ->
            Forall P (omap (fun name => dir !! name) sel)) as Hall.
  { intros P HP. eapply Forall2_Forall_r; [exact Hobjs|].
    apply Forall_forall. intros name Hn obj Ho. by apply (HP name). }
  assert ((forall name r, name ∈ sel -> dir !! name = Some r ->
             is_Some (new_thought r)) ->
          exists ks,
            Forall2 (fun name k => exists r, dir !! name = Some r /\ new_thought r = Some k)
              sel ks
            /\ render_recent_thoughts_text dir n = Returned (map rationale ks)) as Hok.
  { intros Hk.
    destruct (collect_rationales_returned _ (Hall _ Hk)) as (ks & Hks & Hr).
    exists ks. split; [|exact Hr].
    eapply Forall2_trans; [|exact Hobjs|exact Hks].
    intros name obj k Hn Ho. by exists obj. }
  split; [exact Hok|]. split.
  - intros (name & r & Hn & Hr & Hk).
    apply collect_rationales_raised. fold sel.
    apply list_elem_of_lookup in Hn as [i Hi].
    destruct (Forall2_lookup_l _ _ _ i name Hobjs Hi) as (obj & Ho & Hd).
    apply Exists_exists. exists obj. split; [by eapply list_elem_of_lookup_2|].
    congruence.
  - intros Hd. destruct Hok as (ks & Hks & Hr).
    { intros name r _ Hr. by apply (Hd name r). }
    exists (map rationale ks). split; [done|].
    rewrite length_map. symmetry. by eapply Forall2_length.
Qed.

(** The latest file is a record that was triggered but never classified. *)
Lemma recent_view_collects_rationales_witness :
  render_recent_thoughts_text
    {[ "t0.json" := record_completed; "t1.json" := record_triggered ]} 1
  = Raised AttributeError.
Proof.
  destruct (recent_view_collects_rationales
              {[ "t0.json" := record_completed; "t1.json" := record_triggered ]} 1)
    as (_ & H & _).
  apply H. exists "t1.json", record_triggered.
  split; [vm_compute; repeat constructor|]. split; reflexivity.
Defined.

Lemma collect_rationales_nil objs :
  collect_rationales objs = Returned [] -> objs = [].
Proof.
  destruct objs as [|obj objs]; [done|]. cbn.
  destruct (new_thought obj); [|done]. by destruct (collect_rationales objs).
Qed.

(** X11: the view shows "No recent thoughts" exactly when it reads no file,
    which is when the directory is empty, [n] is 0, or [n] is negative with
    [-n] at least the number of files.  When rationales were collected, the
    word cloud is generated from them joined by newlines; it is shown if that
    text has a word to plot, and the view ends in the library's [ValueError]
    if it has none. *)
Theorem no_recent_thoughts_iff (plottable : string -> bool)
    (dir : gmap string ThoughtData) (n : Z) :
  (render_recent_thoughts plottable dir n = Returned NoRecentThoughts
   <-> recent_session_files dir n = [])
  /\ (recent_session_files dir n = []
      <-> size dir = 0%nat \/ n = 0 \/ n <= - Z.of_nat (size dir))
  /\ (forall cloud,
        render_recent_thoughts plottable dir n = Returned (WordCloud cloud) ->
        plottable cloud = true
        /\ exists line text,
             render_recent_thoughts_text dir n = Returned (line :: text)
             /\ cloud = join_lines (line :: text))
  /\ (forall line text,
        render_recent_thoughts_text dir n = Returned (line :: text) ->
        plottable (join_lines (line :: text)) = false ->
        render_recent_thoughts plottable dir n
        = Raised (ValueError "We need at least 1 word to plot a word cloud, got 0.")).
Proof.
  destruct (recent_files_are_last_names dir n) as (Hin & _ & _ & _ & Hlen).
  cbn zeta in *. split; [|split; [|split]].
  - unfold render_recent_thoughts, render_recent_thoughts_text. split.
    + intros Hr.
      assert (collect_rationales
                (omap (fun name => dir !! name) (recent_session_files dir n))
              = Returned []) as Hc.
      { destruct (collect_rationales _) as [[|line text]|e]; [done| |done].
        by destruct (plottable _). }
      apply collect_rationales_nil in Hc.
      pose proof (lookup_all dir (recent_session_files dir n)) as Hall.
      rewrite Hc in Hall. apply Forall2_nil_inv_r in Hall; [done|].
      apply Forall_forall. exact Hin.
    + by intros ->.
  - rewrite <- length_zero_iff_nil, Hlen. case_decide; lia.
  - intros cloud. unfold render_recent_thoughts.
    destruct (render_recent_thoughts_text dir n) as [[|line text]|e]; [done| |done].
    destruct (plottable (join_lines (line :: text))) eqn:Hp; intros Hr; simplify_eq.
    split; [done|]. by exists line, text.
  - intros line text Ht Hp. unfold render_recent_thoughts. by rewrite Ht, Hp.
Qed.

Lemma no_recent_thoughts_iff_witness :
  render_recent_thoughts (fun _ => true) {[ "t0.json" := record_completed ]} (-1)
  = Returned NoRecentThoughts.
Proof.
  destruct (no_recent_thoughts_iff (fun _ => true)
              {[ "t0.json" := record_completed ]} (-1)) as (H1 & H2 & _).
  apply H1, H2. right. right. vm_compute. discriminate.
Defined.

(** ** The view and the chain together *)

Lemma session_files_values (P : ThoughtData -> Prop) w :
  map_Forall (fun _ r => P r) (session_dir w) ->
  map_Forall (fun _ r => P r) (session_files w).
Proof.
  intros HP name r Hr. unfold session_files in Hr.
  apply elem_of_list_to_map_2 in Hr.
  apply list_elem_of_fmap in Hr as [[id r'] [Heq Hin]]. simplify_eq/=.
  apply elem_of_map_to_list in Hin. by apply (HP id).
Qed.

Lemma main_body_view REFLECT plottable engine ui w :
  map_Forall (fun _ r => is_Some (new_thought r)) (session_dir w) ->
  main_body REFLECT plottable engine ui w
  = render_main_functionality REFLECT engine ui w
  \/ (main_body REFLECT plottable engine ui w
      = (Raised (ValueError "We need at least 1 word to plot a word cloud, got 0."), w)
      /\ exists text, plottable text = false).
Proof.
  intros Hk. unfold main_body, render_recent_thoughts.
  destruct (recent_view_collects_rationales (session_files w) 5) as (_ & _ & H).
  destruct H as (text & -> & _); [by apply session_files_values|].
  destruct text as [|line text]; [by left|].
  destruct (plottable (join_lines (line :: text))) eqn:Hp; [by left|].
  right. split; [done|]. by eexists.
Qed.

(** X12: the recent-thoughts view is rendered before the main tab, and an
    exception of it keeps the main tab from being rendered.  While every
    stored record has its kick-off set (as in an empty directory, and as the
    chain keeps it), the view never ends in [AttributeError]: a run of
    [main()] on a triggered chain is the run of the main tab, unless the word
    cloud cannot be generated, in which case [main()] ends in that
    [ValueError] with the state untouched; if the word cloud can always be
    generated, every sequence of runs of [main()] is the sequence of runs of
    the main tab.  If one of the five files read has no kick-off, [main()]
    ends in [AttributeError] before the main tab: the state is untouched and
    the engine is not called. *)
Theorem main_view_before_chain REFLECT (plottable : string -> bool)
    (acts : list Action) (w : World) :
  trigger_new_thought (session_data w) = true ->
  (map_Forall (fun _ r => is_Some (new_thought r)) (session_dir w) ->
   (forall engine ui,
      main_body REFLECT plottable engine ui w
      = render_main_functionality REFLECT engine ui w
      \/ (main_body REFLECT plottable engine ui w
          = (Raised (ValueError "We need at least 1 word to plot a word cloud, got 0."),
             w)
          /\ exists text, plottable text = false))
   /\ ((forall text, plottable text = true) ->
       main_chain REFLECT plottable acts w = run_chain REFLECT acts w))
  /\ ((exists name r, name ∈ recent_session_files (session_files w) 5
                      /\ session_files w !! name = Some r /\ new_thought r = None) ->
      forall engine ui,
        main_body REFLECT plottable engine ui w = (Raised AttributeError, w)).
Proof.
  intros Ht. split.
  - intros Hk. split; [intros; by apply main_body_view|].
    intros Hp. revert w Ht Hk.
    induction acts as [|a acts IH]; intros w Ht Hk; cbn; [done|].
    destruct (main_body_view REFLECT plottable (action_engine a) (action_ui a) w Hk)
      as [->|[_ [text Hf]]]; [|by rewrite Hp in Hf].
    apply IH.
    + by apply render_keeps_scalars.
    + by apply render_writes_own_record.
  - intros Hex engine ui. unfold main_body, render_recent_thoughts.
    destruct (recent_view_collects_rationales (session_files w) 5) as (_ & H & _).
    by rewrite (H Hex).
Qed.

(** From an empty directory: classify and continue, twice. *)
Lemma main_view_before_chain_witness :
  length (this_thought_responses (session_data
            (main_chain "reflect" (fun _ => true)
               [act_continue engine_ok; act_continue engine_ok]
               (world_of record_triggered))))
  = 2%nat.
Proof.
  destruct (main_view_before_chain "reflect" (fun _ => true)
              [act_continue engine_ok; act_continue engine_ok]
              (world_of record_triggered) eq_refl) as [H _].
  destruct H as [_ ->]; [apply map_Forall_empty | done | reflexivity].
Defined.

(** ** A burst of calls of the cached listing *)

Section burst.
Context `{ThoughtModel}.

(** While the entry is fresh at every event, every call is served from it and
    neither the store nor the cache is touched. *)
Lemma recent_calls_hits num evs : forall (u : UiState) e,
  recent_cache u !! num = Some e ->
  Forall (fun ev : Z * list Thought => ev.1 < computed_at e + timedelta_seconds 5) evs ->
  let r := recent_calls num evs u in
  r.1 = replicate (length evs) (cached_value e)
  /\ queries (memory r.2) = queries (memory u)
  /\ recent_cache r.2 = recent_cache u.
Proof.
  induction evs as [|[now tbl] evs IH]; intros u e He Hev; cbn; [done|].
  apply Forall_cons in Hev as [Hnow Hev]. cbn in Hnow.
  rewrite (list_recent_hit num (later u now tbl) e He Hnow).
  destruct (IH (later u now tbl) e He Hev) as (Hv & Hq & Hc).
  destruct (recent_calls num evs (later u now tbl)) as [vs u'']. cbn in *.
  by rewrite Hv.
Qed.

Lemma recent_calls_once num t0 evs : forall u : UiState,
  Forall (fun ev : Z * list Thought => t0 <= ev.1 < t0 + timedelta_seconds 5) evs ->
  let r := recent_calls num evs u in
  (queries (memory r.2) = queries (memory u)
   \/ queries (memory r.2) = queries (memory u) ++ [ListRecentlyCompleted num])
  /\ length r.1 = length evs.
Proof.
  induction evs as [|[now tbl] evs IH]; intros u Hev; cbn; [auto|].
  apply Forall_cons in Hev as [Hnow Hev]. cbn in Hnow.
  destruct (recent_cache u !! num) as [e|] eqn:He;
    [destruct (decide (now < computed_at e + timedelta_seconds 5)) as [Hf|Hf]|].
  - rewrite (list_recent_hit num (later u now tbl) e He Hf).
    destruct (IH (later u now tbl) Hev) as [Hq Hl].
    destruct (recent_calls num evs (later u now tbl)) as [vs u'']. cbn in *.
    split; [exact Hq | by rewrite Hl].
  - rewrite (list_recent_miss num (later u now tbl))
      by (cbn; intros e' He'; rewrite He in He'; simplify_eq; lia).
    cbn. set (u1 := Build_UiState _ _ _ _ _).
    destruct (recent_calls_hits num evs u1 _ (lookup_insert_eq _ _ _)) as (Hv & Hq & _).
    { eapply Forall_impl; [exact Hev|]. cbn. intros ev ?. lia. }
    destruct (recent_calls num evs u1) as [vs u'']. cbn in *.
    split; [right; exact Hq|]. by rewrite Hv, length_replicate.
  - rewrite (list_recent_miss num (later u now tbl))
      by (cbn; intros e' He'; rewrite He in He'; simplify_eq).
    cbn. set (u1 := Build_UiState _ _ _ _ _).
    destruct (recent_calls_hits num evs u1 _ (lookup_insert_eq _ _ _)) as (Hv & Hq & _).
    { eapply Forall_impl; [exact Hev|]. cbn. intros ev ?. lia. }
    destruct (recent_calls num evs u1) as [vs u'']. cbn in *.
    split; [right; exact Hq|]. by rewrite Hv, length_replicate.
Qed.

Lemma recent_calls_first num now tbl evs (u : UiState) :
  recent_cache u !! num = None ->
  Forall (fun ev : Z * list Thought => now <= ev.1 < now + timedelta_seconds 5) evs ->
  let r := recent_calls num ((now, tbl) :: evs) u in
  let v := map model_dump
             (take (Z.to_nat num)
                (merge_sort more_recent (filter (fun t => completed t = true) tbl))) in
  r.1 = replicate (S (length evs)) v
  /\ queries (memory r.2) = queries (memory u) ++ [ListRecentlyCompleted num].
Proof.
  intros He Hev. cbn.
  rewrite (list_recent_miss num (later u now tbl))
    by (cbn; intros e' He'; rewrite He in He'; simplify_eq).
  cbn. set (u1 := Build_UiState _ _ _ _ _).
  destruct (recent_calls_hits num evs u1 _ (lookup_insert_eq _ _ _)) as (Hv & Hq & _).
  { eapply Forall_impl; [exact Hev|]. cbn. intros ev ?. lia. }
  destruct (recent_calls num evs u1) as [vs u'']. cbn in *.
  by rewrite Hv.
Qed.
End burst.

(** X13: calls of [_list_recent_thoughts(num)] that all fall into one span
    of less than five seconds query the store at most once, whatever the
    cache held before and however the table changes in between; and when the
    cache has no entry for [num], the first call queries the store and every
    call of the burst returns the listing computed from the table as it was
    at that first call. *)
Theorem cached_burst_queries_once `{ThoughtModel} (num t0 : Z)
    (evs : list (Z * list Thought)) (u : UiState) :
  Forall (fun ev : Z * list Thought => t0 <= ev.1 < t0 + timedelta_seconds 5) evs ->
  let r := recent_calls num evs u in
  length r.1 = length evs
  /\ (queries (memory r.2) = queries (memory u)
      \/ queries (memory r.2) = queries (memory u) ++ [ListRecentlyCompleted num])
  /\ (recent_cache u !! num = None ->
      forall tbl evs', evs = (t0, tbl) :: evs' ->
        r.1 = replicate (length evs)
                (map model_dump
                   (take (Z.to_nat num)
                      (merge_sort more_recent
                         (filter (fun t => completed t = true) tbl))))
        /\ queries (memory r.2) = queries (memory u) ++ [ListRecentlyCompleted num]).
Proof.
  intros Hev r.
  destruct (recent_calls_once num t0 evs u Hev) as [Hq Hl].
  split; [exact Hl|]. split; [exact Hq|].
  intros He tbl evs' ->. apply Forall_cons in Hev as [_ Hev].
  by apply recent_calls_first.
Qed.

(** Three calls within five seconds while the table is emptied. *)
Lemma cached_burst_queries_once_witness :
  let r := @recent_calls sample_model 2
             [(0, sample_table); (2000000, []); (4999999, [])]
             (sample_state 0 []) in
  r.1 = replicate 3 [("c", true, 30); ("a", true, 10)]
  /\ queries (memory r.2) = [ListRecentlyCompleted 2].
Proof.
  destruct (@cached_burst_queries_once sample_model 2 0
              [(0, sample_table); (2000000, []); (4999999, [])]
              (sample_state 0 [])) as (_ & _ & H).
  { repeat constructor; cbn; vm_compute; try discriminate; reflexivity. }
  exact (H eq_refl sample_table _ eq_refl).
Defined.

(** ** The validated listings *)

Section validated_listings.
Context `{ThoughtModel}.
Variable validate : dict -> option Thought.

Lemma validate_python_valid (ds : list dict) (ts : list Thought) :
  ui_lib.validate_python validate ds = ui_lib.Valid ts
  <-> Forall2 (fun d t => validate d = Some t) ds ts.
Proof.
  unfold ui_lib.validate_python. rewrite <- mapM_Some.
  destruct (mapM validate ds); split; intros; by simplify_eq.
Qed.

Lemma validate_python_error (ds : list dict) :
  ui_lib.validate_python validate ds = ui_lib.ValidationError
  <-> exists d, d ∈ ds /\ validate d = None.
Proof.
  unfold ui_lib.validate_python. rewrite <- Exists_exists, <- mapM_None.
  destruct (mapM validate ds); split; intros; by simplify_eq.
Qed.

Lemma validate_python_dumps (ts : list Thought) :
  (forall t, validate (model_dump t) = Some t) ->
  ui_lib.validate_python validate (map model_dump ts) = ui_lib.Valid ts.
Proof.
  intros Hrt. unfold ui_lib.validate_python.
  change (map model_dump ts) with (model_dump <$> ts).
  by rewrite (mapM_fmap_Some validate model_dump ts Hrt).
Qed.
End validated_listings.

(** X14: [list_recent_thoughts(num)] and [list_incomplete_thoughts()]
    validate what the cached listing hands them all or nothing: they return
    the validated records, one per dictionary and in the same order, when
    every dictionary validates, and raise the validation error as soon as one
    does not; the cache and the store are left as the cached listing left
    them.  If validating a dump gives the record back, a call that finds no
    cache entry returns exactly the records the store answered. *)
Theorem validated_listings_all_or_nothing `{ThoughtModel}
    (validate : dict -> option Thought) (num : Z) (u : UiState) :
  let recent := ui_lib.list_recent_thoughts validate num u in
  let incomplete := ui_lib.list_incomplete_thoughts validate u in
  recent.2 = (_list_recent_thoughts num u).2
  /\ incomplete.2 = (_list_incomplete_thoughts u).2
  /\ (forall ts, recent.1 = ui_lib.Valid ts
        <-> Forall2 (fun d t => validate d = Some t) (_list_recent_thoughts num u).1 ts)
  /\ (recent.1 = ui_lib.ValidationError
        <-> exists d, d ∈ (_list_recent_thoughts num u).1 /\ validate d = None)
  /\ (forall ts, incomplete.1 = ui_lib.Valid ts
        <-> Forall2 (fun d t => validate d = Some t) (_list_incomplete_thoughts u).1 ts)
  /\ (incomplete.1 = ui_lib.ValidationError
        <-> exists d, d ∈ (_list_incomplete_thoughts u).1 /\ validate d = None)
  /\ ((forall t, validate (model_dump t) = Some t) ->
      (recent_cache u !! num = None ->
       recent.1 = ui_lib.Valid (list_recently_completed_thoughts num (memory u)).1)
      /\ (incomplete_cache u !! () = None ->
          incomplete.1 = ui_lib.Valid (list_incomplete_thoughts (memory u)).1)).
Proof.
  cbn zeta. unfold ui_lib.list_recent_thoughts, ui_lib.list_incomplete_thoughts.
  destruct (_list_recent_thoughts num u) as [ds u'] eqn:Hr.
  destruct (_list_incomplete_thoughts u) as [ds' u''] eqn:Hi. cbn.
  split; [done|]. split; [done|].
  split; [intros ts; apply validate_python_valid|].
  split; [apply validate_python_error|].
  split; [intros ts; apply validate_python_valid|].
  split; [apply validate_python_error|].
  intros Hrt. split.
  - intros Hn. rewrite list_recent_miss in Hr
      by (intros e He; by rewrite Hn in He).
    simplify_eq. by apply validate_python_dumps.
  - intros Hn. rewrite list_incomplete_miss in Hi
      by (intros e He; by rewrite Hn in He).
    simplify_eq. by apply validate_python_dumps.
Qed.

Lemma validated_listings_all_or_nothing_witness :
  (@ui_lib.list_recent_thoughts sample_model Some 2 (sample_state 0 sample_table)).1
  = ui_lib.Valid [("c", true, 30); ("a", true, 10)].
Proof.
  destruct (@validated_listings_all_or_nothing sample_model Some 2
              (sample_state 0 sample_table)) as (_ & _ & _ & _ & _ & _ & H).
  destruct H as [H _]; [done|]. exact (H eq_refl).
Defined.

(** ** The tab bar *)

Lemma debug_bn_force (ss : gmap string Z) :
  ui_lib.debug_bn (ui_lib.force_home_tab ss) = ui_lib.debug_bn ss + 1.
Proof.
  unfold ui_lib.force_home_tab. unfold ui_lib.debug_bn at 1.
  by rewrite lookup_insert_eq.
Qed.

Lemma debug_bn_iter (ss : gmap string Z) (k : nat) :
  ui_lib.debug_bn (Nat.iter k ui_lib.force_home_tab ss)
  = ui_lib.debug_bn ss + Z.of_nat k.
Proof.
  induction k as [|k IH]; [cbn; lia|].
  rewrite Nat.iter_succ, debug_bn_force, IH. lia.
Qed.

(** X15: [force_home_tab] counts in the session state under "debug-bn",
    starting from 0 when the key is missing, and touches no other key; the
    tab bar then writes one placeholder per count before the four tabs.  So
    after [k] calls on a state without the key the tab bar is [k]
    placeholders followed by the tabs, each further call adds one
    placeholder, and a negative count gives none. *)
Theorem home_tab_counter (ss : gmap string Z) (k : nat) :
  let ss' := Nat.iter k ui_lib.force_home_tab ss in
  ui_lib.debug_bn ss' = ui_lib.debug_bn ss + Z.of_nat k
  /\ (forall key, key <> "debug-bn" -> ss' !! key = ss !! key)
  /\ (0 <= ui_lib.debug_bn ss ->
      ui_lib.render_tabbar ss' = replicate k ui_lib.Empty ++ ui_lib.render_tabbar ss)
  /\ (ss !! "debug-bn" = None ->
      ui_lib.render_tabbar ss'
      = replicate k ui_lib.Empty
        ++ [ui_lib.Tabs ["Home"; "AI Generated Blog"; "Recent Thoughts"; "Debug"]])
  /\ (ui_lib.debug_bn ss < 0 -> ui_lib.home_tab_hack ss = []).
Proof.
  cbn zeta.
  assert (forall n : Z, 0 <= n ->
            ui_lib.debug_bn ss = n ->
            ui_lib.render_tabbar (Nat.iter k ui_lib.force_home_tab ss)
            = replicate k ui_lib.Empty ++ ui_lib.render_tabbar ss) as Hbar.
  { intros n Hn Hss. unfold ui_lib.render_tabbar, ui_lib.home_tab_hack.
    rewrite debug_bn_iter, Hss, app_assoc. f_equal.
    rewrite <- replicate_add. f_equal. lia. }
  split; [apply debug_bn_iter|]. split; [|split; [|split]].
  - intros key Hne. clear Hbar. induction k as [|k IH]; [done|].
    rewrite Nat.iter_succ. unfold ui_lib.force_home_tab at 1.
    rewrite lookup_insert_ne by congruence. exact IH.
  - intros Hn. by apply (Hbar (ui_lib.debug_bn ss)).
  - intros Hnone. rewrite (Hbar 0); [|lia|by unfold ui_lib.debug_bn; rewrite Hnone].
    unfold ui_lib.render_tabbar, ui_lib.home_tab_hack, ui_lib.debug_bn.
    by rewrite Hnone.
  - intros Hneg. unfold ui_lib.home_tab_hack.
    by replace (Z.to_nat (ui_lib.debug_bn ss)) with 0%nat by lia.
Qed.

Lemma home_tab_counter_witness :
  ui_lib.render_tabbar (Nat.iter 2 ui_lib.force_home_tab {[ "other" := 7 ]})
  = [ui_lib.Empty; ui_lib.Empty;
     ui_lib.Tabs ["Home"; "AI Generated Blog"; "Recent Thoughts"; "Debug"]].
Proof.
  destruct (home_tab_counter {[ "other" := 7 ]} 2) as (_ & _ & _ & H & _).
  exact (H eq_refl).
Defined.

(** ** The debug tab *)

(** X16: the load form of the debug tab.  With the toggle off nothing is
    read and nothing changes.  With it on, the incomplete thoughts are listed
    first (through the cache), and a validation error of that listing ends
    the tab before the form is handled: session and session state stay as
    they were, even if an id was submitted.  Otherwise a submit without an id
    only shows "Specify thought ID"; a submit with an id clears the session,
    binds it to that id, counts one more forced home tab (so the next tab bar
    has one more placeholder) and reruns. *)
Theorem debug_tab_load `{ThoughtModel} {Session : Type}
    (clear_session : Session -> Session)
    (set_thought_id : string -> Session -> Session)
    (validate : dict -> option Thought) (inp : ui_lib.DebugInput)
    (session : Session) (ss : gmap string Z) (u : UiState) :
  let r := ui_lib.render_debug_tab clear_session set_thought_id validate inp
             (session, ss, u) in
  let listing := (ui_lib.list_incomplete_thoughts validate u).1 in
  (ui_lib.show_incomplete inp = false ->
   r = (ui_lib.DebugShown None None, (session, ss, u)))
  /\ (ui_lib.show_incomplete inp = true ->
      r.2.2 = (_list_incomplete_thoughts u).2
      /\ (listing = ui_lib.ValidationError ->
          r.1 = ui_lib.DebugValidationError /\ r.2.1 = (session, ss))
      /\ (forall ts, listing = ui_lib.Valid ts ->
          (ui_lib.submitted inp = false ->
           r.1 = ui_lib.DebugShown (Some (map model_dump ts)) None
           /\ r.2.1 = (session, ss))
          /\ (ui_lib.submitted inp = true ->
              ui_lib.load_incomplete inp = EmptyString ->
              r.1 = ui_lib.DebugShown (Some (map model_dump ts))
                      (Some "Specify thought ID")
              /\ r.2.1 = (session, ss))
          /\ (ui_lib.submitted inp = true ->
              ui_lib.load_incomplete inp <> EmptyString ->
              r.1 = ui_lib.DebugRerun
              /\ r.2.1.1 = set_thought_id (ui_lib.load_incomplete inp)
                             (clear_session session)
              /\ ui_lib.debug_bn r.2.1.2 = ui_lib.debug_bn ss + 1
              /\ (0 <= ui_lib.debug_bn ss ->
                  ui_lib.render_tabbar r.2.1.2
                  = ui_lib.Empty :: ui_lib.render_tabbar ss)))).
Proof.
  cbn zeta. unfold ui_lib.render_debug_tab, ui_lib.list_incomplete_thoughts.
  destruct (_list_incomplete_thoughts u) as [ds u'] eqn:Hl. cbn.
  destruct inp as [[] load sub]; cbn; (split; [done|]); intros Hshow;
    try discriminate Hshow.
  destruct (ui_lib.validate_python validate ds) as [ts'|]; cbn.
  - destruct sub; [destruct (decide (load = EmptyString)) as [Hid|Hid]|]; cbn;
      (split; [done|]); (split; [done|]); intros ts Hts; simplify_eq;
      (split; [done|]); (split; [done|]); intros Hsub Hne; try done.
    split; [done|]. split; [done|]. split; [apply debug_bn_force|].
    intros Hn. unfold ui_lib.render_tabbar, ui_lib.home_tab_hack.
    rewrite debug_bn_force.
    replace (Z.to_nat (ui_lib.debug_bn ss + 1)) with (S (Z.to_nat (ui_lib.debug_bn ss)))
      by lia.
    done.
  - split; [done|]. split; [done|]. intros ts Hts. discriminate Hts.
Qed.

(** A session that is its thought id; loading "t7". *)
Lemma debug_tab_load_witness :
  let inp := {| ui_lib.show_incomplete := true; ui_lib.load_incomplete := "t7";
                ui_lib.submitted := true |} in
  let r := @ui_lib.render_debug_tab sample_model string
             (fun _ => EmptyString) (fun id _ => id) Some inp
             ("t1", ∅, sample_state 0 sample_table) in
  r.1 = ui_lib.DebugRerun /\ r.2.1.1 = "t7"
  /\ ui_lib.render_tabbar r.2.1.2
     = [ui_lib.Empty;
        ui_lib.Tabs ["Home"; "AI Generated Blog"; "Recent Thoughts"; "Debug"]].
Proof.
  intros inp r.
  destruct (@debug_tab_load sample_model string (fun _ => EmptyString)
              (fun id _ => id) Some inp "t1" ∅ (sample_state 0 sample_table))
    as [_ H].
  destruct (H eq_refl) as (_ & _ & Hv).
  destruct (Hv [("b", false, 20)] eq_refl) as (_ & _ & Hs).
  destruct Hs as (H1 & H2 & _ & H4); [reflexivity | discriminate |].
  split; [exact H1|]. split; [exact H2|]. apply H4. vm_compute. discriminate.
Defined.
